(** * Red Sea risk pipeline: a shallow embedding and its properties

    The repository is a four-stage analytics pipeline:
    - [Jobs/GDELT Miner.py]   : normalises rows of a news-event API into records;
    - [Jobs/Upsample Rates.py]: expands weekly prices into an hourly series;
    - [Jobs/repo.py]          : loads both into stores and joins them (the gold table);
    - [streamlitdashboard.py] : reads the gold table and renders it.

    Conventions of the embedding.
    - Python [str] values are Rocq strings; the character predicates
      ([isdigit], [isspace]) are Python's on the ASCII range, and U+FEFF is its
      UTF-8 encoding (the bytes EF BB BF).  A statement that depends on how a
      character is classed takes ASCII text as a hypothesis.
    - Floating-point columns of pandas and Spark are exact rationals in lowest
      terms ([Qc]); the Miner, which never computes with its tone values, keeps
      the float type abstract.
    - The rows of a Spark frame are a list in one order, that of the rate
      table; Spark promises none, and statements about a frame or about the
      gold table are up to the order of the rows.  The transform is modelled
      on collections whose day keys are null or calendar days
      ([Spec.day_keys_parse]), where [to_date] cannot raise.
    - Random draws are taken from an explicit generator state or noise sequence.
    - External stores (files, the document collection, the relational tables)
      are explicit components of a state that each unit transforms. *)

From Stdlib Require Import ZArith QArith Qcanon Qround String Ascii List Lia
  Permutation Lqa.
From stdpp Require Import gmap strings list sorting.

Local Open Scope string_scope.

(** ** Python string helpers shared by the stages *)

Module PyStr.

Definition isdigit (c : ascii) : bool :=
  let n := nat_of_ascii c in (48 <=? n)%nat && (n <=? 57)%nat.

(** [str.isspace] for one character, ASCII range: TAB, LF, VT, FF, CR,
    the separators FS, GS, RS, US, and the space. *)
Definition isspace (c : ascii) : bool :=
  let n := nat_of_ascii c in
  ((9 <=? n)%nat && (n <=? 13)%nat) || ((28 <=? n)%nat && (n <=? 32)%nat).

Definition chars (s : string) : list ascii := list_ascii_of_string s.
Definition str (l : list ascii) : string := string_of_list_ascii l.

(** [s.lstrip()], [s.rstrip()], [s.strip()] *)
Fixpoint lstrip (s : string) : string :=
  match s with
  | String c s' => if isspace c then lstrip s' else s
  | EmptyString => EmptyString
  end.

Definition rstrip (s : string) : string :=
  str (rev (chars (lstrip (str (rev (chars s)))))).

Definition strip (s : string) : string := rstrip (lstrip s).

(** [s.lstrip(BOM)] where BOM is the one-character string U+FEFF: drops
    every leading U+FEFF. *)
Fixpoint lstrip_bom (s : string) : string :=
  match s with
  | String a (String b (String c s')) =>
      if ((nat_of_ascii a =? 239) && (nat_of_ascii b =? 187)
          && (nat_of_ascii c =? 191))%nat
      then lstrip_bom s' else s
  | _ => s
  end.

(** Truth value of a [str]: non-empty. *)
Definition truthy (s : string) : bool :=
  match s with EmptyString => false | String _ _ => true end.

(** [a or b] where both sides are [str] or [None]. *)
Definition py_or (a b : option string) : option string :=
  match a with
  | Some s => if truthy s then a else b
  | None => b
  end.

(** [s[:n]] *)
Definition slice_to (n : nat) (s : string) : string := str (take n (chars s)).

(** ["".join(ch for ch in s if ch.isdigit())] *)
Definition digits_of (s : string) : string := str (filter (fun c => isdigit c = true) (chars s)).

Definition digit_value (c : ascii) : Z := Z.of_nat (nat_of_ascii c) - 48.

(** [int(s)] for the strings the code passes to it, which hold digits only:
    the empty string raises [ValueError] (here [None]); so does any other
    character. *)
Definition int_of_digits (s : string) : option Z :=
  match chars s with
  | [] => None
  | l => if forallb isdigit l
         then Some (fold_left (fun acc c => 10 * acc + digit_value c)%Z l 0%Z)
         else None
  end.

(** [s.isascii()] *)
Definition isascii (s : string) : bool :=
  forallb (fun c => (nat_of_ascii c <? 128)%nat) (chars s).

(** The one-character string U+FEFF. *)
Definition BOM : string :=
  String (ascii_of_nat 239) (String (ascii_of_nat 187) (String (ascii_of_nat 191) "")).

End PyStr.

(** ** Event Miner ([Jobs/GDELT Miner.py]) *)

(** What the Miner uses of the Python runtime without computing with it:
    the float type, [float(str)], and the state of the [random] module with
    [random.gauss(mu, sigma)].  [float] strips surrounding whitespace before
    it parses, so a blank string never parses ([float_blank]). *)
Class PyRuntime := {
  pyfloat : Type;
  float : string -> option pyfloat;
  float_blank : forall s, PyStr.strip s = "" -> float s = None;
  rng_state : Type;
  gauss : Q -> Q -> rng_state -> pyfloat * rng_state
}.

Module Miner.
Import PyStr.

Definition COUNTRY_CODE : string := "YEM".

Definition generate_global_event_id (counter : Z) : Z := counter.

(** A row as [csv.DictReader] yields it, as the items of the dict: the
    field names, each with its cell, or [None] for a column the line is too
    short to reach.  The reader builds the dict from the columns of the line
    ([dict_of_columns]), so that its field names are distinct.  (The [None]
    key under which the reader collects surplus cells is dropped by the
    [if k] of the normalisation and is left out.) *)
Definition row := list (string * option string).

(** [d[k] = v] on the items of a dict: a key that is there keeps its place
    and takes the new value, a new key goes to the end. *)
Fixpoint dict_set (k : string) (v : option string) (items : row) : row :=
  match items with
  | [] => [(k, v)]
  | (k', v') :: rest =>
      if String.eqb k' k then (k', v) :: rest else (k', v') :: dict_set k v rest
  end.

(** [dict(zip(fieldnames, cells))], the row that the reader builds from the
    columns of a line. *)
Definition dict_of_columns (columns : list (string * option string)) : row :=
  fold_left (fun items kv => dict_set kv.1 kv.2 items) columns [].

(** [{k.lstrip(BOM).strip(): v for k, v in row.items() if k}] *)
Definition norm_row (r : row) : gmap string (option string) :=
  fold_left
    (fun m kv => if truthy kv.1 then <[strip (lstrip_bom kv.1) := kv.2]> m else m)
    r ∅.

(** [d.get(k)]: [None] for a missing key and for a key bound to [None]. *)
Definition get (m : gmap string (option string)) (k : string) : option string :=
  mjoin (m !! k).

Definition date_raw (m : gmap string (option string)) : string :=
  default "" (py_or (py_or (get m "Date") (get m "date")) (get m "DATE")).

(** [cleaned_date = "".join(ch for ch in date_raw if ch.isdigit())[:8]] *)
Definition cleaned_date (raw : string) : string := slice_to 8 (digits_of raw).

Definition url_val (m : gmap string (option string)) : string :=
  strip (default "" (py_or (py_or (get m "URL") (get m "url")) (get m "Url"))).

Definition tone_str (m : gmap string (option string)) : option string :=
  py_or (py_or (get m "Tone") (get m "tone")) (get m "AvgTone").

Section WithRuntime.
Context `{PyRuntime}.

Record event := {
  GlobalEventID : Z;
  Day : Z;
  Country : string;
  Tone : pyfloat;
  SourceURL : string
}.

(** Step 4 of the loop body: the [try] around [float(tone_str)] with its two
    fallback branches. *)
Definition tone_val (t : option string) (g : rng_state) : pyfloat * rng_state :=
  match t with
  | Some s =>
      if truthy s && truthy (strip s)
      then match float s with
           | Some v => (v, g)
           | None => gauss (-5) 2 g
           end
      else gauss (-5) 2 g
  | None => gauss (-5) 2 g
  end.

(** One turn of [for row in reader]: [None] is a [continue]. *)
Definition process_row (start_id : Z) (r : row) (g : rng_state)
  : option (event * rng_state) :=
  let m := norm_row r in
  match int_of_digits (cleaned_date (date_raw m)) with
  | None => None
  | Some day_int =>
      let u := url_val m in
      if truthy u then
        let (tv, g') := tone_val (tone_str m) g in
        Some ({| GlobalEventID := generate_global_event_id start_id;
                 Day := day_int;
                 Country := COUNTRY_CODE;
                 Tone := tv;
                 SourceURL := u |}, g')
      else None
  end.

(** [parse_and_write] from [for row in reader] on: the rows are those the csv
    reader yields for the response text, [written] is the output file so far.
    Returns the file, the next identifier and the generator state. *)
Fixpoint parse_and_write (rows : list row) (written : list event)
    (start_id : Z) (g : rng_state) : list event * Z * rng_state :=
  match rows with
  | [] => (written, start_id, g)
  | r :: rows' =>
      match process_row start_id r g with
      | None => parse_and_write rows' written start_id g
      | Some (e, g') => parse_and_write rows' (written ++ [e]) (start_id + 1)%Z g'
      end
  end.

End WithRuntime.
End Miner.

(** ** Calendar dates and timestamps *)

Module Calendar.
Import PyStr.

Local Open Scope Z_scope.

(** A date is its day number (days since 1970-01-01, proleptic Gregorian);
    a timestamp is a number of seconds since 1970-01-01T00:00:00, without
    time zone. *)
Definition is_leap (y : Z) : bool :=
  ((y mod 4 =? 0) && negb (y mod 100 =? 0)) || (y mod 400 =? 0).

Definition days_in_month (y m : Z) : Z :=
  if m =? 2 then (if is_leap y then 29 else 28)
  else if (m =? 4) || (m =? 6) || (m =? 9) || (m =? 11) then 30
  else 31.

Definition valid_ymd (y m d : Z) : bool :=
  (1 <=? y) && (1 <=? m) && (m <=? 12) && (1 <=? d) && (d <=? days_in_month y m).

Definition days_from_civil (y m d : Z) : Z :=
  let y' := if m <=? 2 then y - 1 else y in
  let era := y' / 400 in
  let yoe := y' - era * 400 in
  let mp := (m + 9) mod 12 in
  let doy := (153 * mp + 2) / 5 + d - 1 in
  let doe := yoe * 365 + yoe / 4 - yoe / 100 + doy in
  era * 146097 + doe - 719468.

Definition date_of_ymd (y m d : Z) : option Z :=
  if valid_ymd y m d then Some (days_from_civil y m d) else None.

Definition number (l : list ascii) : Z :=
  fold_left (fun acc c => 10 * acc + digit_value c) l 0.

(** Parsing with the pattern [yyyyMMdd]: eight digits that name a day of
    the calendar; anything else has no date.  (For such a text Spark's
    [to_date] gives null or, when its legacy parser accepts the text, raises:
    see [Spec.day_key_parses].) *)
Definition parse_yyyyMMdd (s : string) : option Z :=
  let l := chars s in
  if (length l =? 8)%nat && forallb isdigit l
  then date_of_ymd (number (take 4 l)) (number (take 2 (drop 4 l)))
                   (number (drop 6 l))
  else None.

(** Parsing of the ISO form [yyyy-MM-dd]. *)
Definition parse_iso_date (s : string) : option Z :=
  match chars s with
  | [y1; y2; y3; y4; "-"%char; m1; m2; "-"%char; d1; d2] =>
      if forallb isdigit [y1; y2; y3; y4; m1; m2; d1; d2]
      then date_of_ymd (number [y1; y2; y3; y4]) (number [m1; m2]) (number [d1; d2])
      else None
  | _ => None
  end.

Definition seconds_per_hour : Z := 3600.
Definition seconds_per_day : Z := 86400.

(** Midnight of a date, and the hour [h] of a date, as timestamps. *)
Definition midnight (d : Z) : Z := d * seconds_per_day.
Definition at_hour (d h : Z) : Z := midnight d + h * seconds_per_hour.

(** Truncation of a timestamp to its calendar date. *)
Definition date_of_timestamp (ts : Z) : Z := ts / seconds_per_day.

End Calendar.

(** ** Exact rationals for the float columns *)

Module Num.

Definition Zc (z : Z) : Qc := Q2Qc (inject_Z z).

(** Round half to even, to an integer: what [numpy.rint] does. *)
Definition rint (x : Qc) : Z :=
  let f := Qfloor x in
  match (x - Zc f ?= Q2Qc (1 # 2))%Qc with
  | Lt => f
  | Gt => (f + 1)%Z
  | Eq => if Z.even f then f else (f + 1)%Z
  end.

(** [Series.round(2)]: scale by 100, round half to even, scale back. *)
Definition round2 (x : Qc) : Qc := (Zc (rint (x * Zc 100)) / Zc 100)%Qc.

Definition sum (l : list Qc) : Qc := fold_right Qcplus (Zc 0) l.

(** Smallest and largest element of a non-empty column. *)
Definition col_min (x : Z) (l : list Z) : Z := fold_left Z.min l x.
Definition col_max (x : Z) (l : list Z) : Z := fold_left Z.max l x.

End Num.

(** ** Rate Upsampler ([Jobs/Upsample Rates.py]) *)

Module Upsampler.
Import Num.

(** The hourly index of [resample('h')] for dates [dmin .. dmax]: every
    whole hour from the midnight of the first to the midnight of the last. *)
Definition hours_spanned (dmin dmax : Z) : nat := Z.to_nat (24 * (dmax - dmin) + 1).

Definition hourly_index (dmin dmax : Z) : list Z :=
  map (fun k => Calendar.at_hour dmin (Z.of_nat k)) (seq 0 (hours_spanned dmin dmax)).

(** Reindexing on the hourly index: the price of the anchor that sits on
    the timestamp, or a missing value. *)
Definition reindex (anchors : list (Z * Qc)) (ts : Z) : option Qc :=
  snd <$> List.find (fun a => (Calendar.midnight (fst a) =? ts)%Z) anchors.

(** The first present value at or after position [i]. *)
Fixpoint next_valid (i : nat) (l : list (option Qc)) : option (nat * Qc) :=
  match l with
  | [] => None
  | Some v :: _ => Some (i, v)
  | None :: l' => next_valid (S i) l'
  end.

Definition pos (n : nat) : Qc := Zc (Z.of_nat n).

(** [interpolate(method='linear')] on one column: positions count as
    equally spaced; a missing value between two present ones takes
    [slope * (x - x0) + y0]; missing values after the last present one
    repeat it; missing values before the first stay missing.  [prev] is the
    last present value met so far and [i] the position of the head. *)
Fixpoint interp_from (prev : option (nat * Qc)) (i : nat) (l : list (option Qc))
  : list (option Qc) :=
  match l with
  | [] => []
  | Some v :: l' => Some v :: interp_from (Some (i, v)) (S i) l'
  | None :: l' =>
      match prev with
      | None => None
      | Some (i0, v0) =>
          match next_valid (S i) l' with
          | Some (i1, v1) =>
              Some ((v1 - v0) / (pos i1 - pos i0) * (pos i - pos i0) + v0)%Qc
          | None => Some v0
          end
      end :: interp_from prev (S i) l'
  end.

Definition interpolate_linear (l : list (option Qc)) : list (option Qc) :=
  interp_from None 0 l.

(** [df_rates.resample('h').interpolate(method='linear')] for anchors given
    as (date, price): [None] is the [ValueError] that reindexing raises when
    a date occurs twice. *)
Definition resample_interpolate (anchors : list (Z * Qc)) : option (list (Z * option Qc)) :=
  match anchors with
  | [] => Some []
  | (d, _) :: rest =>
      if bool_decide (NoDup (map fst anchors)) then
        let dmin := col_min d (map fst rest) in
        let dmax := col_max d (map fst rest) in
        let index := hourly_index dmin dmax in
        Some (zip index (interpolate_linear (map (reindex anchors) index)))
      else None
  end.

Record hourly_row := {
  Date : Z;
  Price : option Qc;
  Route : string
}.

(** The two files of the working directory the script touches: the weekly
    table (a date cell and a price per line) and the hourly table it writes;
    [None] is a file that does not exist. *)
Record files := {
  rates_csv : option (list (string * Qc));
  upsampled_rates_csv : option (list hourly_row)
}.

Inductive outcome :=
  | Completed
  | Exited (status : Z)
  | Uncaught (exception : string).

Section Run.
(** [pd.to_datetime] on one date cell ([None]: it raises), and the draws of
    [np.random.normal(0, 5, n)] by position. *)
Variable to_datetime : string -> option Z.
Variable noise : nat -> Qc.

Definition upsample_rates (fs : files) : outcome * files :=
  match rates_csv fs with
  | None => (Exited 1, fs)
  | Some df_rates =>
      match mapM (fun r => to_datetime (fst r)) df_rates with
      | None => (Uncaught "ValueError", fs)
      | Some dates =>
          match resample_interpolate (zip dates (map snd df_rates)) with
          | None => (Uncaught "ValueError", fs)
          | Some df_hourly =>
              let noisy :=
                imap (fun i r =>
                        {| Date := fst r;
                           Price := (fun p => round2 (p + noise i)%Qc) <$> snd r;
                           Route := "Shanghai-Rotterdam" |}) df_hourly in
              (Completed,
               {| rates_csv := rates_csv fs; upsampled_rates_csv := Some noisy |})
          end
      end
  end.

End Run.
End Upsampler.

(** ** Ingest and transform ([Jobs/repo.py]) *)

Module Orchestrator.
Import Num.

(** A news document under [news_schema]; every field is nullable. *)
Record news_doc := {
  GlobalEventID : option Z;
  Day : option string;
  Country : option string;
  Tone : option Qc;
  SourceURL : option string
}.

(** A row of [Staging_Rates]. *)
Record rate := {
  Date : Z;
  Route : string;
  Price : Qc
}.

(** [df_news] after the three [withColumn] steps. *)
Record news_row := {
  doc : news_doc;
  day_str : option string;
  event_date : option Z;
  conflict_intensity : option Qc
}.

Definition clean_news (d : news_doc) : news_row :=
  let ds := PyStr.slice_to 8 <$> Day d in
  {| doc := d;
     day_str := ds;
     event_date := ds ≫= Calendar.parse_yyyyMMdd;
     conflict_intensity := (fun t => t * Zc (-1))%Qc <$> Tone d |}.

(** A row of [df_daily_news]. *)
Record daily := {
  d_event_date : option Z;
  d_news_count : Z;
  d_avg_conflict_score : option Qc
}.

(** [avg]: the mean of the values that are not null; null when there are
    none. *)
Definition avg (l : list (option Qc)) : option Qc :=
  match omap id l with
  | [] => None
  | vs => Some (sum vs / Zc (Z.of_nat (length vs)))%Qc
  end.

Definition group (k : option Z) (rows : list news_row) : list news_row :=
  filter (fun r => event_date r = k) rows.

(** [groupBy("event_date").agg(count("*"), avg("conflict_intensity"))]:
    one row per distinct key, the null key included. *)
Definition aggregate_daily (rows : list news_row) : list daily :=
  map (fun k =>
         let g := group k rows in
         {| d_event_date := k;
            d_news_count := Z.of_nat (length g);
            d_avg_conflict_score := avg (map conflict_intensity g) |})
      (remove_dups (map event_date rows)).

(** A row of the gold table. *)
Record gold_row := {
  full_date : Z;
  g_Price : Qc;
  news_count : Z;
  avg_conflict_score : option Qc
}.

(** The join condition [to_date(df_rates.Date) == df_daily_news.event_date]:
    a null key equals nothing. *)
Definition same_day (r : rate) (a : daily) : bool :=
  match d_event_date a with
  | Some d => (Calendar.date_of_timestamp (Date r) =? d)%Z
  | None => false
  end.

Definition select_gold (r : rate) (a : daily) : gold_row :=
  {| full_date := Date r;
     g_Price := Price r;
     news_count := d_news_count a;
     avg_conflict_score := d_avg_conflict_score a |}.

(** [df_rates.join(df_daily_news, ..., how="inner").select(...)]; the rows
    are listed in the order of the rate table. *)
Definition join_rates_news (rates : list rate) (news : list daily) : list gold_row :=
  r ← rates; select_gold r <$> filter (fun a => same_day r a = true) news.

(** The three stores of the pipeline; the gold table may not exist yet. *)
Record stores := {
  raw_gdelt_events : list news_doc;
  Staging_Rates : list rate;
  Gold_Analytics_RedSea : option (list gold_row)
}.

Inductive transform_msg :=
  | NoMatchingDates
  | Saved (rows : nat).

Definition df_final (s : stores) : list gold_row :=
  join_rates_news (Staging_Rates s)
                  (aggregate_daily (clean_news <$> raw_gdelt_events s)).

(** The run of the unit on a collection whose day keys are null or calendar
    days: the count of the joined frame, then the overwrite of the gold
    table when the count is positive.  On another day key [to_date] can
    raise under the parser policy of Spark 3, and the run then ends in that
    exception with nothing written; the statements about the run take
    [Spec.day_keys_parse] as a hypothesis. *)
Definition transform_data_with_spark (s : stores) : stores * transform_msg :=
  let final := df_final s in
  if (0 <? length final)%nat then
    ({| raw_gdelt_events := raw_gdelt_events s;
        Staging_Rates := Staging_Rates s;
        Gold_Analytics_RedSea := Some final |}, Saved (length final))
  else (s, NoMatchingDates).

(** *** News ingest *)

Inductive store_op :=
  | DeleteMany
  | ReadCsv
  | InsertMany (documents : nat).

Inductive ingest_msg :=
  | Inserted (documents : nat)
  | CsvWasEmpty
  | Error (what : string).

(** What the news ingest works on: the collection, the records that
    [pd.read_csv] and [to_dict] give for the mined file ([None]: reading
    raises), and the behaviour of the server on a bulk insert
    ([Some k]: it stores the first [k] documents and then raises).  [log]
    records the operations in the order the unit issues them. *)
Record ingest_world := {
  collection : list news_doc;
  historical_news_raw_csv : option (list news_doc);
  insert_fault : option nat;
  log : list store_op
}.

Definition issue (op : store_op) (w : ingest_world) : ingest_world :=
  {| collection := collection w;
     historical_news_raw_csv := historical_news_raw_csv w;
     insert_fault := insert_fault w;
     log := log w ++ [op] |}.

Definition set_collection (c : list news_doc) (w : ingest_world) : ingest_world :=
  {| collection := c;
     historical_news_raw_csv := historical_news_raw_csv w;
     insert_fault := insert_fault w;
     log := log w |}.

Definition delete_many (w : ingest_world) : ingest_world :=
  set_collection [] (issue DeleteMany w).

(** [collection.insert_many(records)]: [false] when it raised. *)
Definition insert_many (records : list news_doc) (w : ingest_world)
  : ingest_world * bool :=
  let w' := issue (InsertMany (length records)) w in
  match insert_fault w with
  | Some k => (set_collection (collection w ++ take k records) w', false)
  | None => (set_collection (collection w ++ records) w', true)
  end.

Definition ingest_news_to_mongo (w : ingest_world) : ingest_world * ingest_msg :=
  let w1 := delete_many w in
  let w2 := issue ReadCsv w1 in
  match historical_news_raw_csv w2 with
  | None => (w2, Error "read_csv")
  | Some records =>
      match records with
      | [] => (w2, CsvWasEmpty)
      | _ =>
          let (w3, ok) := insert_many records w2 in
          if ok then (w3, Inserted (length records))
          else (w3, Error "insert_many")
      end
  end.

End Orchestrator.

(** ** Dashboard ([streamlitdashboard.py]) *)

Module Dashboard.
Import Num.

Record df_row := {
  full_date : Z;
  Price : Qc;
  news_count : Z;
  avg_conflict_score : option Qc;
  Risk_Score : option Qc
}.

(** The pre-processing of [load_data] on one row of the query's result. *)
Definition preprocess (g : Orchestrator.gold_row) : df_row :=
  let risk := (fun a => Zc (Orchestrator.news_count g) * a)%Qc
                <$> Orchestrator.avg_conflict_score g in
  {| full_date := Orchestrator.full_date g;
     Price := round2 (Orchestrator.g_Price g);
     news_count := Orchestrator.news_count g;
     avg_conflict_score := round2 <$> Orchestrator.avg_conflict_score g;
     Risk_Score := round2 <$> risk |}.

Definition by_full_date (a b : Orchestrator.gold_row) : Prop :=
  (Orchestrator.full_date a <= Orchestrator.full_date b)%Z.

#[local] Instance by_full_date_dec a b : Decision (by_full_date a b).
Proof. unfold by_full_date. apply _. Defined.

(** [load_data]: the rows of the gold table in date order, pre-processed;
    the empty frame when the query raises (here: no such table). *)
Definition load_data (gold : option (list Orchestrator.gold_row)) : list df_row :=
  match gold with
  | None => []
  | Some rows => preprocess <$> merge_sort by_full_date rows
  end.

Record window := {
  min_date : Z;
  max_date : Z;
  default_start : Z;
  default_end : Z
}.

Definition crisis_start : Z := Calendar.days_from_civil 2023 11 15.
Definition crisis_end : Z := Calendar.days_from_civil 2024 1 31.

(** The sidebar's date range: [None] when the frame is empty and the script
    stops before it. *)
Definition date_window (df : list df_row) : option window :=
  match Calendar.date_of_timestamp <$> (full_date <$> df) with
  | [] => None
  | d :: ds =>
      let lo := col_min d ds in
      let hi := col_max d ds in
      let start := if (crisis_start <? lo)%Z then lo else crisis_start in
      let stop := if (hi <? crisis_end)%Z then hi else crisis_end in
      Some {| min_date := lo; max_date := hi;
              default_start := start; default_end := stop |}
  end.

End Dashboard.

(** ** Specification-side definitions and sample data *)

Module Spec.
Import PyStr.

(** The first [n] digits met when reading a field from the left. *)
Fixpoint leading_digits (n : nat) (l : list ascii) : list ascii :=
  match n, l with
  | O, _ => []
  | _, [] => []
  | S n', c :: l' =>
      if isdigit c then c :: leading_digits n' l' else leading_digits n l'
  end.

(** An eight-digit string, the shape of a [YYYYMMDD] date. *)
Definition eight_digits (d : string) : Prop :=
  length (chars d) = 8%nat /\ forallb isdigit (chars d) = true.

(** An integer of exactly eight decimal digits. *)
Definition eight_digit_int (n : Z) : Prop := (10000000 <= n < 100000000)%Z.

(** The Miner's three tests on a row, in the words of its contract. *)
Section RowTests.
Context `{PyRuntime}.

Definition date_ok (r : Miner.row) : Prop :=
  is_Some (int_of_digits (Miner.cleaned_date (Miner.date_raw (Miner.norm_row r)))).

Definition url_ok (r : Miner.row) : Prop :=
  Miner.url_val (Miner.norm_row r) <> "".

(** The tone field is absent, empty, blank, or not the text of a float. *)
Definition tone_unusable (r : Miner.row) : Prop :=
  match Miner.tone_str (Miner.norm_row r) with
  | None => True
  | Some s => strip s = "" \/ float s = None
  end.

(** The tone field is the text of the float [v]. *)
Definition tone_parses (r : Miner.row) (v : pyfloat) : Prop :=
  exists s, Miner.tone_str (Miner.norm_row r) = Some s /\ float s = Some v.

End RowTests.

(** The point of the straight line from anchor [(d0, p0)] to anchor
    [(d1, p1)] that lies [h] hours after the first. *)
Definition segment_value (d0 : Z) (p0 : Qc) (d1 : Z) (p1 : Qc) (h : Z) : Qc :=
  (p0 + (p1 - p0) * Num.Zc h / Num.Zc (24 * (d1 - d0)))%Qc.

(** Two anchor dates with no anchor in between. *)
Definition adjacent (anchors : list (Z * Qc)) (d0 d1 : Z) : Prop :=
  (d0 < d1)%Z /\ forall d, d ∈ map fst anchors -> ~ (d0 < d < d1)%Z.

Definition increasing (l : list Qc) : Prop :=
  forall i x y, l !! i = Some x -> l !! S i = Some y -> (x < y)%Qc.

Fixpoint increasingb (l : list Qc) : bool :=
  match l with
  | x :: l' =>
      match l' with
      | y :: _ => match (x ?= y)%Qc with Lt => increasingb l' | _ => false end
      | [] => true
      end
  | [] => true
  end.

(** The news documents of one calendar day, as the transform dates them. *)
Definition docs_of_day (day : Z) (docs : list Orchestrator.news_doc)
  : list Orchestrator.news_doc :=
  filter (fun d => Orchestrator.event_date (Orchestrator.clean_news d) = Some day) docs.

(** The mean tone of a list of documents: over the tones that are present,
    and undefined when there is none. *)
Definition mean_tone (docs : list Orchestrator.news_doc) : option Qc :=
  match omap Orchestrator.Tone docs with
  | [] => None
  | ts => Some (Num.sum ts / Num.Zc (Z.of_nat (length ts)))%Qc
  end.

(** The product the risk score is defined as. *)
Definition risk_product (count : Z) (score : option Qc) : option Qc :=
  (fun a => Num.Zc count * a)%Qc <$> score.

(** Two states of the gold table that hold the same rows. *)
Definition same_table (a b : option (list Orchestrator.gold_row)) : Prop :=
  match a, b with
  | Some x, Some y => x ≡ₚ y
  | None, None => True
  | _, _ => False
  end.

(** A timestamp falls on a calendar day: it is no earlier than the day's
    midnight and earlier than the next one. *)
Definition on_day (ts day : Z) : Prop :=
  (Calendar.midnight day <= ts < Calendar.midnight (day + 1))%Z.

(** Truncating a timestamp to its calendar date: the time of day is cut
    off and the days are counted. *)
Definition calendar_date (ts : Z) : Z := ((ts - ts mod 86400) / 86400)%Z.

(** The news aggregate of a calendar day: the number of its documents and
    their mean tone with the sign inverted. *)
Definition day_aggregate (day : Z) (docs : list Orchestrator.news_doc)
  : Orchestrator.daily :=
  {| Orchestrator.d_event_date := Some day;
     Orchestrator.d_news_count := Z.of_nat (length (docs_of_day day docs));
     Orchestrator.d_avg_conflict_score := Qcopp <$> mean_tone (docs_of_day day docs) |}.

(** The gold row of a rate-hour and the news documents of its day. *)
Definition gold_row_of (r : Orchestrator.rate) (docs : list Orchestrator.news_doc)
  : Orchestrator.gold_row :=
  {| Orchestrator.full_date := Orchestrator.Date r;
     Orchestrator.g_Price := Orchestrator.Price r;
     Orchestrator.news_count := Z.of_nat (length docs);
     Orchestrator.avg_conflict_score := Qcopp <$> mean_tone docs |}.

(** The inner join in the words of the contract: one row for every
    rate-hour whose calendar date has news, none for the others. *)
Definition inner_join (rates : list Orchestrator.rate)
    (docs : list Orchestrator.news_doc) : list Orchestrator.gold_row :=
  r ← rates;
  match docs_of_day (calendar_date (Orchestrator.Date r)) docs with
  | [] => []
  | d :: ds => [gold_row_of r (d :: ds)]
  end.

(** The day key of a document is null or names a calendar day.  These are
    the keys on which [to_date] answers by itself; on any other key Spark 3
    asks its legacy parser as well and, under the default parser policy, the
    job raises when that one accepts the key. *)
Definition day_key_parses (d : Orchestrator.news_doc) : bool :=
  match Orchestrator.Day d with
  | Some day => bool_decide (is_Some (Calendar.parse_yyyyMMdd (slice_to 8 day)))
  | None => true
  end.

Definition day_keys_parse (s : Orchestrator.stores) : bool :=
  forallb day_key_parses (Orchestrator.raw_gdelt_events s).



(** A date inside the bounds of the loaded data. *)
Definition within_bounds (w : Dashboard.window) (d : Z) : Prop :=
  (Dashboard.min_date w <= d <= Dashboard.max_date w)%Z.

End Spec.

(** A small runtime to run the Miner on sample rows: [float] reads signed
    whole numbers, and the generator, whose state counts the draws, returns
    the mean it is asked for. *)
Module SampleRuntime.

Definition parse_whole (s : string) : option Qc :=
  match s with
  | String "-" r => (fun z => Num.Zc (- z)) <$> PyStr.int_of_digits r
  | r => Num.Zc <$> PyStr.int_of_digits r
  end.

Definition runtime : PyRuntime.
Proof.
  refine {| pyfloat := Qc;
            float := fun s => parse_whole (PyStr.strip s);
            rng_state := nat;
            gauss := fun mu sigma g => (Q2Qc mu, S g) |}.
  intros s Hs. rewrite Hs. reflexivity.
Defined.

End SampleRuntime.

(** Sample rows, series and stores. *)
Module Samples.

Definition row_without_tone : Miner.row :=
  [("URL", Some "https://example.org/a"); ("Date", Some "20231019T120000Z");
   ("Tone", Some "  ")].

Definition row_with_tone : Miner.row :=
  [("URL", Some "https://example.org/b"); ("Date", Some "20231020T000000Z");
   ("Tone", Some "-4")].

Definition row_with_short_date : Miner.row :=
  [("URL", Some "https://example.org/c"); ("Date", Some "2023-10")].

(** The weekly series [(2023-10-01, 1000), (2023-10-08, 1200)]. *)
Definition weekly_rates : list (Z * Qc) :=
  [(Calendar.days_from_civil 2023 10 1, Num.Zc 1000);
   (Calendar.days_from_civil 2023 10 8, Num.Zc 1200)].

Definition article (id : Z) (day : string) (tone : Qc) : Orchestrator.news_doc :=
  {| Orchestrator.GlobalEventID := Some id;
     Orchestrator.Day := Some day;
     Orchestrator.Country := Some "YEM";
     Orchestrator.Tone := Some tone;
     Orchestrator.SourceURL := Some "https://example.org/a" |}.

Definition rate_at (y m d h : Z) (price : Qc) : Orchestrator.rate :=
  {| Orchestrator.Date := Calendar.at_hour (Calendar.days_from_civil y m d) h;
     Orchestrator.Route := "Shanghai-Rotterdam";
     Orchestrator.Price := price |}.

(** Three articles of 2023-10-05 with tones -3, -4, -5 (mean -4), one article
    of 2023-10-06 without a rate, and rates at 07:00 of 2023-10-05 and at
    noon of 2023-10-07. *)
Definition october_stores : Orchestrator.stores :=
  {| Orchestrator.raw_gdelt_events :=
       [article 100000 "20231005" (Num.Zc (-3));
        article 100001 "20231005T120000Z" (Num.Zc (-4));
        article 100002 "20231005" (Num.Zc (-5));
        article 100003 "20231006" (Num.Zc (-7))];
     Orchestrator.Staging_Rates :=
       [rate_at 2023 10 5 7 (Num.Zc 1100); rate_at 2023 10 7 12 (Num.Zc 1180)];
     Orchestrator.Gold_Analytics_RedSea := None |}.



(** Three articles of one day, each with tone -0.3125. *)
Definition fractional_stores : Orchestrator.stores :=
  {| Orchestrator.raw_gdelt_events :=
       [article 100000 "20231005" (Q2Qc (-5 # 16));
        article 100001 "20231005" (Q2Qc (-5 # 16));
        article 100002 "20231005" (Q2Qc (-5 # 16))];
     Orchestrator.Staging_Rates := [rate_at 2023 10 5 7 (Num.Zc 1100)];
     Orchestrator.Gold_Analytics_RedSea := None |}.

(** A working directory that holds the weekly file of the two anchors. *)
Definition weekly_files : Upsampler.files :=
  {| Upsampler.rates_csv :=
       Some [("2023-10-01", Num.Zc 1000); ("2023-10-08", Num.Zc 1200)];
     Upsampler.upsampled_rates_csv := None |}.

(** A gold table whose only rows are of 2024-02-05. *)
Definition february_gold : list Orchestrator.gold_row :=
  [ {| Orchestrator.full_date := Calendar.at_hour (Calendar.days_from_civil 2024 2 5) 0;
       Orchestrator.g_Price := Num.Zc 3200;
       Orchestrator.news_count := 3;
       Orchestrator.avg_conflict_score := Some (Num.Zc 4) |};
    {| Orchestrator.full_date := Calendar.at_hour (Calendar.days_from_civil 2024 2 5) 1;
       Orchestrator.g_Price := Num.Zc 3201;
       Orchestrator.news_count := 3;
       Orchestrator.avg_conflict_score := Some (Num.Zc 4) |} ].

(** One article of 2023-10-06, one rate at noon of 2023-10-07, and a gold
    table left by an earlier run. *)
Definition unmatched_stores : Orchestrator.stores :=
  {| Orchestrator.raw_gdelt_events := [article 100003 "20231006" (Num.Zc (-7))];
     Orchestrator.Staging_Rates := [rate_at 2023 10 7 12 (Num.Zc 1180)];
     Orchestrator.Gold_Analytics_RedSea := Some february_gold |}.



(** A collection with one document from an earlier run, and no mined file
    to read. *)
Definition stale_world : Orchestrator.ingest_world :=
  {| Orchestrator.collection := [article 100000 "20231005" (Num.Zc (-3))];
     Orchestrator.historical_news_raw_csv := None;
     Orchestrator.insert_fault := None;
     Orchestrator.log := [] |}.

End Samples.

(** ** The Miner's run ([Jobs/GDELT Miner.py], [fetch_day_csv], the text
    part of [parse_and_write], [main]) *)

Module MinerRun.
Import PyStr.

(** [sub in s] for two strings. *)
Fixpoint contains (sub s : string) : bool :=
  String.prefix sub s ||
  match s with
  | EmptyString => false
  | String _ s' => contains sub s'
  end.

(** [s.split(sep)] for a one-character separator: never empty, one field
    more than there are separators. *)
Fixpoint split (sep : ascii) (s : string) : list string :=
  match s with
  | EmptyString => [EmptyString]
  | String c s' =>
      if Ascii.eqb c sep then EmptyString :: split sep s'
      else match split sep s' with
           | field :: fields => String c field :: fields
           | [] => [String c EmptyString]
           end
  end.

(** [sep.join(fields)] *)
Fixpoint join (sep : string) (fields : list string) : string :=
  match fields with
  | [] => EmptyString
  | field :: fields' =>
      match fields' with
      | [] => field
      | _ :: _ => field ++ sep ++ join sep fields'
      end
  end.

(** The line boundaries of [str.splitlines], ASCII range: LF, VT, FF, CR,
    FS, GS, RS (and CR LF taken as one). *)
Definition is_linebreak (c : ascii) : bool :=
  let n := nat_of_ascii c in
  ((10 <=? n)%nat && (n <=? 13)%nat) || ((28 <=? n)%nat && (n <=? 30)%nat).

(** [s.splitlines()]; [line] is the part of the current line read so far. *)
Fixpoint splitlines_from (line : string) (s : string) : list string :=
  match s with
  | EmptyString =>
      match line with EmptyString => [] | String _ _ => [line] end
  | String c s' =>
      if is_linebreak c then
        line ::
        match s' with
        | String c' s'' =>
            if ((nat_of_ascii c =? 13) && (nat_of_ascii c' =? 10))%nat
            then splitlines_from EmptyString s''
            else splitlines_from EmptyString s'
        | EmptyString => splitlines_from EmptyString s'
        end
      else splitlines_from (line ++ String c EmptyString) s'
  end.

Definition splitlines (s : string) : list string := splitlines_from EmptyString s.

(** Step 1 of [parse_and_write]: the first name of the header line loses
    its leading U+FEFF and its surrounding blanks. *)
Definition clean_header (line : string) : string :=
  match split "," line with
  | first :: names => join "," (strip (lstrip_bom first) :: names)
  | [] => line
  end.

(** The query of one request of [fetch_day_csv]. *)
Record request := {
  query : string;
  mode : string;
  format : string;
  maxrecords : string;
  startdatetime : string;
  enddatetime : string
}.

Definition QUERY : string := "(Houthi OR " ++ String (ascii_of_nat 34) "Red Sea"
                             ++ String (ascii_of_nat 34) ") tone<-2".
Definition MAX_RECORDS : string := "250".

(** The civil date of a day number. *)
Definition civil_from_days (z : Z) : Z * Z * Z :=
  let z := (z + 719468)%Z in
  let era := (z / 146097)%Z in
  let doe := (z - era * 146097)%Z in
  let yoe := ((doe - doe / 1460 + doe / 36524 - doe / 146096) / 365)%Z in
  let y := (yoe + era * 400)%Z in
  let doy := (doe - (365 * yoe + yoe / 4 - yoe / 100))%Z in
  let mp := ((5 * doy + 2) / 153)%Z in
  let d := (doy - (153 * mp + 2) / 5 + 1)%Z in
  let m := (if mp <? 10 then mp + 3 else mp - 9)%Z in
  ((if m <=? 2 then y + 1 else y)%Z, m, d).

Definition digit_char (n : Z) : ascii := ascii_of_nat (48 + Z.to_nat (n mod 10)).

Definition pad2 (n : Z) : string :=
  String (digit_char (n / 10)) (String (digit_char n) EmptyString).

Definition pad4 (n : Z) : string :=
  String (digit_char (n / 1000)) (String (digit_char (n / 100)) (pad2 n)).

(** [dt.strftime("%Y%m%d%H%M%S")] for the day [day] at [h:mi:s]. *)
Definition strftime (day h mi s : Z) : string :=
  let '(y, m, d) := civil_from_days day in
  pad4 y ++ pad2 m ++ pad2 d ++ pad2 h ++ pad2 mi ++ pad2 s.

Definition day_request (day : Z) : request :=
  {| query := QUERY;
     mode := "artlist";
     format := "csv";
     maxrecords := MAX_RECORDS;
     startdatetime := strftime day 0 0 0;
     enddatetime := strftime day 23 59 59 |}.

Definition start_date : Z := Calendar.days_from_civil 2023 10 19.
Definition end_date : Z := Calendar.days_from_civil 2024 2 8.

Section WithWorld.
Context `{PyRuntime}.

(** The API as the run meets it: the text of the response to a request, or
    [None] when [requests.get] or [raise_for_status] raises.  [DictReader]
    is what [csv.DictReader] yields for a list of lines. *)
Variable http_get : request -> option string.
Variable DictReader : list string -> list Miner.row.

Definition fetch_day_csv (day : Z) : option string := http_get (day_request day).

(** [parse_and_write] on the response text: nothing to do for a blank
    text, else the header is cleaned and the rows are read and written. *)
Definition parse_and_write_text (csv_text : string) (written : list Miner.event)
    (start_id : Z) (g : rng_state) : list Miner.event * Z * rng_state :=
  match splitlines (strip csv_text) with
  | [] => (written, start_id, g)
  | header :: lines =>
      Miner.parse_and_write (DictReader (clean_header header :: lines))
                            written start_id g
  end.

(** The state of [main]: the output file, the identifier counter, the
    generator, and the requests issued so far. *)
Record run := {
  f_out : list Miner.event;
  global_id_counter : Z;
  generator : rng_state;
  issued : list request
}.

(** The body of the [while] of [main] for the day [current]. *)
Definition one_day (current : Z) (st : run) : run :=
  let st' := {| f_out := f_out st;
                global_id_counter := global_id_counter st;
                generator := generator st;
                issued := issued st ++ [day_request current] |} in
  match fetch_day_csv current with
  | Some csv_text =>
      if contains "SQLDATE" csv_text || contains "Date" csv_text then
        let '(written, next_id, g) :=
          parse_and_write_text csv_text (f_out st) (global_id_counter st)
                               (generator st) in
        {| f_out := written;
           global_id_counter := next_id;
           generator := g;
           issued := issued st' |}
      else st'
  | None => st'
  end.

(** [while current <= end_date: ...; current += timedelta(days=1)], with
    [fuel] bounding the number of turns. *)
Fixpoint main_loop (fuel : nat) (current : Z) (st : run) : run :=
  match fuel with
  | O => st
  | S fuel' =>
      if (current <=? end_date)%Z
      then main_loop fuel' (current + 1)%Z (one_day current st)
      else st
  end.

Definition days_to_run : nat := Z.to_nat (end_date - start_date + 1).

Definition main (g : rng_state) : run :=
  main_loop days_to_run start_date
    {| f_out := []; global_id_counter := 100000; generator := g; issued := [] |}.

(** What [main] prints last: the number of rows mined. *)
Definition total_rows_mined (st : run) : Z := (global_id_counter st - 100000)%Z.

End WithWorld.
End MinerRun.

(** ** The dashboard's filter and summary ([streamlitdashboard.py]) *)

Module DashboardView.
Import Num.

Definition date_of (r : Dashboard.df_row) : Z :=
  Calendar.date_of_timestamp (Dashboard.full_date r).

(** [df.loc[(date >= start_date) & (date <= end_date)]] *)
Definition filter_range (start_date end_date : Z) (df : list Dashboard.df_row)
  : list Dashboard.df_row :=
  filter (fun r => (start_date <= date_of r)%Z /\ (date_of r <= end_date)%Z) df.

Definition Qcmax (a b : Qc) : Qc :=
  match (a ?= b)%Qc with Lt => b | _ => a end.

Record kpis := {
  max_price : Qc;
  total_news : Z;
  correlation_shown : bool
}.

(** The three summary figures; [None] when the filtered frame is empty and
    the script stops with a warning.  The correlation itself is a square
    root and is left out: only whether it is shown or replaced by "N/A". *)
Definition summary (filtered_df : list Dashboard.df_row) : option kpis :=
  match filtered_df with
  | [] => None
  | r :: rs =>
      Some {| max_price := fold_left Qcmax (Dashboard.Price <$> rs) (Dashboard.Price r);
              total_news := fold_left Z.add (Dashboard.news_count <$> filtered_df) 0%Z;
              correlation_shown := (1 <? length filtered_df)%nat |}
  end.

End DashboardView.

(** ** Shapes used in the statements about whole runs *)

Module Shape.
Import PyStr.

(** A string with no blank at either end. *)
Definition clean_ends (s : string) : Prop :=
  match chars s with [] => True | c :: _ => isspace c = false end
  /\ match rev (chars s) with [] => True | c :: _ => isspace c = false end.

(** What every record of the Miner's file satisfies. *)
Definition well_formed_event `{PyRuntime} (e : Miner.event) : Prop :=
  (0 <= Miner.Day e < 100000000)%Z
  /\ Miner.Country e = "YEM"
  /\ Miner.SourceURL e <> ""
  /\ clean_ends (Miner.SourceURL e).

(** The last column of a row whose header, once cleaned, is [name]. *)
Definition last_column (name : string) (r : Miner.row) : option (string * option string) :=
  last (filter (fun kv => fst kv <> "" /\ strip (lstrip_bom (fst kv)) = name) r).

(** A response the run can use: it arrived and mentions a date column. *)
Definition usable (response : option string) : Prop :=
  match response with
  | Some csv_text =>
      MinerRun.contains "SQLDATE" csv_text || MinerRun.contains "Date" csv_text = true
  | None => False
  end.

(** The identifiers of a file are 100000, 100001, ... without gaps, and the
    counter is the next one. *)
Definition numbered_from_100000 `{PyRuntime} (file : list Miner.event) (counter : Z) : Prop :=
  counter = (100000 + Z.of_nat (length file))%Z
  /\ Miner.GlobalEventID <$> file = seqZ 100000 (Z.of_nat (length file)).

(** A value that is absent or lies between two bounds. *)
Definition within (lo hi : Qc) (o : option Qc) : Prop :=
  forall v, o = Some v -> (lo <= v <= hi)%Qc.

(** A value with at most two decimals: a whole number of hundredths. *)
Definition in_hundredths (p : Qc) : Prop :=
  exists n : Z, p = (Num.Zc n / Num.Zc 100)%Qc.

Definition total (l : list Z) : Z := foldr Z.add 0%Z l.

(** A row of ASCII text: every field name (after any leading U+FEFF) and
    every cell. *)
Definition ascii_row (r : Miner.row) : bool :=
  forallb (fun kv => isascii (lstrip_bom kv.1) && from_option isascii true kv.2) r.

(** The stores without the documents that have no [Day]. *)
Definition without_dayless (s : Orchestrator.stores) : Orchestrator.stores :=
  {| Orchestrator.raw_gdelt_events :=
       filter (fun d => is_Some (Orchestrator.Day d)) (Orchestrator.raw_gdelt_events s);
     Orchestrator.Staging_Rates := Orchestrator.Staging_Rates s;
     Orchestrator.Gold_Analytics_RedSea := Orchestrator.Gold_Analytics_RedSea s |}.

End Shape.

(** More sample data. *)
Module MoreSamples.

(** A gold table with rows of 2023-12-01 and 2023-12-20. *)
Definition december_gold : list Orchestrator.gold_row :=
  [ {| Orchestrator.full_date := Calendar.at_hour (Calendar.days_from_civil 2023 12 20) 6;
       Orchestrator.g_Price := Q2Qc (2412345 # 1000);
       Orchestrator.news_count := 5;
       Orchestrator.avg_conflict_score := Some (Q2Qc (37 # 8)) |};
    {| Orchestrator.full_date := Calendar.at_hour (Calendar.days_from_civil 2023 12 1) 0;
       Orchestrator.g_Price := Num.Zc 1500;
       Orchestrator.news_count := 2;
       Orchestrator.avg_conflict_score := None |} ].

(** [october_stores] with two more documents that have no [Day]. *)
Definition october_stores_with_dayless : Orchestrator.stores :=
  {| Orchestrator.raw_gdelt_events :=
       {| Orchestrator.GlobalEventID := Some 100004%Z;
          Orchestrator.Day := None;
          Orchestrator.Country := Some "YEM";
          Orchestrator.Tone := Some (Num.Zc (-9));
          Orchestrator.SourceURL := Some "https://example.org/e" |}
       :: Orchestrator.raw_gdelt_events Samples.october_stores
       ++ [ {| Orchestrator.GlobalEventID := None;
               Orchestrator.Day := None;
               Orchestrator.Country := None;
               Orchestrator.Tone := None;
               Orchestrator.SourceURL := None |} ];
     Orchestrator.Staging_Rates := Orchestrator.Staging_Rates Samples.october_stores;
     Orchestrator.Gold_Analytics_RedSea := None |}.

End MoreSamples.

(** ** Properties of the Event Miner *)

Section PyStrFacts.
Import PyStr.

Lemma chars_app (a b : string) : chars (a ++ b) = (chars a ++ chars b)%list.
Proof. induction a as [|c a IH]; simpl; [reflexivity | now rewrite IH]. Qed.

Lemma chars_str (l : list ascii) : chars (str l) = l.
Proof. apply list_ascii_of_string_of_list_ascii. Qed.

Lemma str_chars (s : string) : str (chars s) = s.
Proof. apply string_of_list_ascii_of_string. Qed.

Lemma filter_digits_all (l : list ascii) :
  forallb isdigit l = true -> filter (fun c => isdigit c = true) l = l.
Proof.
  induction l as [|c l IH]; simpl; [reflexivity|].
  intros [Hc Hl]%andb_prop. rewrite filter_cons_True by assumption.
  now rewrite IH.
Qed.

Lemma leading_digits_filter (n : nat) (l : list ascii) :
  Spec.leading_digits n l = take n (filter (fun c => isdigit c = true) l).
Proof.
  revert n. induction l as [|c l IH]; intros [|n]; simpl; try reflexivity.
  destruct (isdigit c) eqn:Hc.
  - rewrite filter_cons_True by assumption. simpl. now rewrite IH.
  - rewrite filter_cons_False by (rewrite Hc; discriminate). apply IH.
Qed.

Lemma strip_empty : strip "" = "".
Proof. reflexivity. Qed.

Lemma truthy_true (s : string) : truthy s = true <-> s <> "".
Proof. destruct s; simpl; split; congruence. Qed.

Lemma truthy_false (s : string) : truthy s = false <-> s = "".
Proof. destruct s; simpl; split; congruence. Qed.

End PyStrFacts.

Section MinerFacts.
Import PyStr.

Lemma cleaned_date_scan (raw : string) :
  Miner.cleaned_date raw = str (Spec.leading_digits 8 (chars raw)).
Proof.
  unfold Miner.cleaned_date, slice_to, digits_of.
  now rewrite chars_str, leading_digits_filter.
Qed.

Lemma cleaned_date_embedded (pre d post : string) :
  Spec.eight_digits d ->
  chars (Miner.cleaned_date (pre ++ d ++ post)) =
  take 8 (filter (fun c => isdigit c = true) (chars pre) ++ chars d).
Proof.
  intros [Hlen Hdig]. unfold Miner.cleaned_date, slice_to, digits_of.
  rewrite !chars_str, !chars_app, !filter_app, (filter_digits_all (chars d)) by assumption.
  rewrite (app_assoc _ (chars d)), take_app_le; [reflexivity|].
  rewrite length_app. lia.
Qed.

(** C3. A date field of ASCII text that holds an eight-digit date among
    other characters is cleaned to the first eight digits met from the left,
    nothing else of the field is kept, and when no digit precedes the date
    that is the date itself; the orchestrator's day key of a field that
    starts with the date and goes on with anything is the same eight
    digits. *)
Theorem cleaned_date_is_leading_eight_digits (pre d post : string) (doc : Orchestrator.news_doc) :
  isascii (pre ++ d ++ post) = true ->
  Spec.eight_digits d ->
  Miner.cleaned_date (pre ++ d ++ post)
    = str (Spec.leading_digits 8 (chars (pre ++ d ++ post)))
  /\ length (chars (Miner.cleaned_date (pre ++ d ++ post))) = 8%nat
  /\ forallb isdigit (chars (Miner.cleaned_date (pre ++ d ++ post))) = true
  /\ (digits_of pre = "" -> Miner.cleaned_date (pre ++ d ++ post) = d)
  /\ Miner.cleaned_date (d ++ post) = d
  /\ (Orchestrator.Day doc = Some (d ++ post) ->
      Orchestrator.day_str (Orchestrator.clean_news doc) = Some d).
Proof.
  intros _ Hd. pose proof Hd as [Hlen Hdig].
  assert (Hno : forall p, digits_of p = "" ->
                  Miner.cleaned_date (p ++ d ++ post) = d).
  { intros p Hp. rewrite <- (str_chars (Miner.cleaned_date _)).
    rewrite cleaned_date_embedded by assumption.
    unfold digits_of in Hp. apply (f_equal chars) in Hp.
    rewrite chars_str in Hp. rewrite Hp. simpl.
    rewrite take_ge by lia. apply str_chars. }
  split; [apply cleaned_date_scan|].
  split.
  { rewrite cleaned_date_embedded by assumption.
    rewrite length_take, length_app. lia. }
  split.
  { rewrite cleaned_date_embedded by assumption.
    apply forallb_forall. intros c Hc%list_elem_of_In.
    apply elem_of_take in Hc as (i & Hc & _).
    apply list_elem_of_lookup_2 in Hc.
    apply elem_of_app in Hc as [Hc|Hc].
    - now apply list_elem_of_filter in Hc as [Hc _].
    - rewrite forallb_forall in Hdig. apply Hdig. now apply list_elem_of_In. }
  split; [apply Hno|].
  split; [apply (Hno ""); reflexivity|].
  intros HDay. unfold Orchestrator.clean_news. simpl. rewrite HDay. simpl.
  f_equal. unfold slice_to. rewrite chars_app, take_app_le by lia.
  rewrite take_ge by lia. apply str_chars.
Qed.

Lemma cleaned_date_is_leading_eight_digits_witness :
  Miner.cleaned_date ("seen " ++ "20231019" ++ "T120000Z") = "20231019"
  /\ Miner.cleaned_date ("on 5 Oct: " ++ "20231005" ++ "") = "52023100".
Proof.
  split.
  - refine (proj1 (proj2 (proj2 (proj2
      (cleaned_date_is_leading_eight_digits "seen " "20231019" "T120000Z"
         {| Orchestrator.GlobalEventID := None; Orchestrator.Day := None;
            Orchestrator.Country := None; Orchestrator.Tone := None;
            Orchestrator.SourceURL := None |} _ _)))) _).
    + reflexivity.
    + split; reflexivity.
    + reflexivity.
  - refine (eq_trans (proj1
      (cleaned_date_is_leading_eight_digits "on 5 Oct: " "20231005" ""
         {| Orchestrator.GlobalEventID := None; Orchestrator.Day := None;
            Orchestrator.Country := None; Orchestrator.Tone := None;
            Orchestrator.SourceURL := None |} _ _)) _).
    + reflexivity.
    + split; reflexivity.
    + reflexivity.
Defined.

Section ToneFacts.
Context `{PyRuntime}.

Lemma tone_val_fallback (t : option string) (g : rng_state) :
  match t with None => True | Some s => strip s = "" \/ float s = None end ->
  Miner.tone_val t g = gauss (-5) 2 g.
Proof.
  unfold Miner.tone_val. destruct t as [s|]; [|reflexivity].
  intros [Hs|Hs].
  - rewrite Hs. simpl. now rewrite andb_false_r.
  - rewrite Hs. now destruct (truthy s && truthy (strip s)).
Qed.

Lemma tone_val_parsed (s : string) (v : pyfloat) (g : rng_state) :
  float s = Some v -> Miner.tone_val (Some s) g = (v, g).
Proof.
  intros Hv. unfold Miner.tone_val.
  assert (Hstrip : truthy (strip s) = true).
  { apply truthy_true. intros Hs. apply float_blank in Hs. congruence. }
  assert (Hs : truthy s = true).
  { apply truthy_true. intros ->. now rewrite strip_empty in Hstrip. }
  now rewrite Hs, Hstrip, Hv.
Qed.

(** C6. A row that passes the date and URL tests is written whatever its tone
    field holds: with the tone absent, empty, blank or unparseable the record
    carries the draw of [gauss(-5.0, 2.0)], and with a tone that parses as a
    float it carries that float and no draw is made. *)
Theorem tone_falls_back_to_gauss (id : Z) (r : Miner.row) (g : rng_state) :
  Spec.date_ok r -> Spec.url_ok r ->
  is_Some (Miner.process_row id r g)
  /\ (Spec.tone_unusable r ->
      exists e, Miner.process_row id r g = Some (e, (gauss (-5) 2 g).2)
                /\ Miner.Tone e = (gauss (-5) 2 g).1)
  /\ (forall v, Spec.tone_parses r v ->
      exists e, Miner.process_row id r g = Some (e, g) /\ Miner.Tone e = v).
Proof.
  intros [day Hday] Hurl%truthy_true.
  unfold Miner.process_row, Spec.tone_unusable, Spec.tone_parses.
  rewrite Hday, Hurl. split; [|split].
  - destruct (Miner.tone_val _ g). eauto.
  - intros Ht. rewrite (tone_val_fallback _ g Ht).
    destruct (gauss (-5) 2 g) as [tv g']. eauto.
  - intros v (s & Hs & Hv). rewrite Hs, (tone_val_parsed s v g Hv). eauto.
Qed.

End ToneFacts.

Lemma tone_falls_back_to_gauss_witness :
  (exists e, @Miner.process_row SampleRuntime.runtime 100000 Samples.row_without_tone 0%nat
             = Some (e, 1%nat) /\ Miner.Tone e = Num.Zc (-5))
  /\ (exists e, @Miner.process_row SampleRuntime.runtime 100000 Samples.row_with_tone 0%nat
                = Some (e, 0%nat) /\ Miner.Tone e = Num.Zc (-4)).
Proof.
  split.
  - refine (proj1 (proj2 (@tone_falls_back_to_gauss SampleRuntime.runtime 100000
                            Samples.row_without_tone 0%nat _ _)) _).
    + vm_compute. eauto.
    + vm_compute. discriminate.
    + vm_compute. left. reflexivity.
  - refine (proj2 (proj2 (@tone_falls_back_to_gauss SampleRuntime.runtime 100000
                            Samples.row_with_tone 0%nat _ _)) (Num.Zc (-4)) _).
    + vm_compute. eauto.
    + vm_compute. discriminate.
    + exists "-4". split; reflexivity.
Defined.

(** C4 fails on the code: a date field with fewer than eight digits still
    parses as an integer, so the row is written, with a day that is not an
    eight-digit number. *)
Theorem short_date_row_is_written `{PyRuntime} (written : list Miner.event)
    (id : Z) (g : rng_state) :
  exists e g',
    Miner.parse_and_write [Samples.row_with_short_date] written id g
      = ((written ++ [e])%list, (id + 1)%Z, g')
    /\ Miner.Day e = 202310%Z
    /\ ~ Spec.eight_digit_int (Miner.Day e).
Proof.
  unfold Miner.parse_and_write, Miner.process_row. cbv zeta.
  replace (int_of_digits _) with (Some 202310%Z) by (vm_compute; reflexivity).
  replace (Miner.url_val _) with "https://example.org/c" by (vm_compute; reflexivity).
  replace (Miner.tone_str _) with (@None string) by (vm_compute; reflexivity).
  cbn [truthy Miner.tone_val]. destruct (gauss (-5) 2 g) as [tv g'].
  eexists _, g'. split; [reflexivity|]. split; [reflexivity|].
  unfold Spec.eight_digit_int. cbn [Miner.Day]. lia.
Qed.

End MinerFacts.

(** ** Arithmetic facts *)

Section NumFacts.
Import Num.

Lemma Zc_add (a b : Z) : Zc (a + b) = (Zc a + Zc b)%Qc.
Proof.
  unfold Zc, Qcplus. apply Q2Qc_eq_iff. cbn [this Q2Qc].
  rewrite !Qred_correct, inject_Z_plus. reflexivity.
Qed.

Lemma Zc_opp (a : Z) : Zc (- a) = (- Zc a)%Qc.
Proof.
  unfold Zc, Qcopp. apply Q2Qc_eq_iff. cbn [this Q2Qc].
  rewrite !Qred_correct, inject_Z_opp. reflexivity.
Qed.

Lemma Zc_sub (a b : Z) : Zc (a - b) = (Zc a - Zc b)%Qc.
Proof. unfold Z.sub, Qcminus. now rewrite Zc_add, Zc_opp. Qed.

Lemma Zc_mul (a b : Z) : Zc (a * b) = (Zc a * Zc b)%Qc.
Proof.
  unfold Zc, Qcmult. apply Q2Qc_eq_iff. cbn [this Q2Qc].
  rewrite !Qred_correct, inject_Z_mult. reflexivity.
Qed.

Lemma Zc_inj (a b : Z) : Zc a = Zc b -> a = b.
Proof.
  unfold Zc. intros Hab%Q2Qc_eq_iff. now apply inject_Z_injective.
Qed.

Lemma Zc_nonzero (a : Z) : a <> 0%Z -> Zc a <> Zc 0.
Proof. intros Ha Hz. now apply Zc_inj in Hz. Qed.

Lemma col_min_le (x : Z) (l : list Z) : (col_min x l <= x)%Z.
Proof.
  unfold col_min. revert x. induction l as [|y l IH]; intros x; simpl; [lia|].
  specialize (IH (Z.min x y)). lia.
Qed.

Lemma col_min_lower (x : Z) (l : list Z) (y : Z) : y ∈ l -> (col_min x l <= y)%Z.
Proof.
  unfold col_min. revert x. induction l as [|z l IH]; intros x Hy; simpl.
  - now apply not_elem_of_nil in Hy.
  - apply elem_of_cons in Hy as [->|Hy]; [|now apply IH].
    pose proof (col_min_le (Z.min x z) l) as Hle. unfold col_min in Hle. lia.
Qed.

Lemma col_min_elem (x : Z) (l : list Z) : col_min x l ∈ x :: l.
Proof.
  unfold col_min. revert x. induction l as [|z l IH]; intros x; simpl.
  - apply list_elem_of_here.
  - specialize (IH (Z.min x z)).
    apply elem_of_cons in IH as [IH|IH].
    + rewrite IH. destruct (Z.min_spec x z) as [[_ ->]|[_ ->]];
        [apply list_elem_of_here | apply list_elem_of_further, list_elem_of_here].
    + now do 2 apply list_elem_of_further.
Qed.

Lemma col_max_ge (x : Z) (l : list Z) : (x <= col_max x l)%Z.
Proof.
  unfold col_max. revert x. induction l as [|y l IH]; intros x; simpl; [lia|].
  specialize (IH (Z.max x y)). lia.
Qed.

Lemma col_max_upper (x : Z) (l : list Z) (y : Z) : y ∈ l -> (y <= col_max x l)%Z.
Proof.
  unfold col_max. revert x. induction l as [|z l IH]; intros x Hy; simpl.
  - now apply not_elem_of_nil in Hy.
  - apply elem_of_cons in Hy as [->|Hy]; [|now apply IH].
    pose proof (col_max_ge (Z.max x z) l) as Hle. unfold col_max in Hle. lia.
Qed.

Lemma col_max_elem (x : Z) (l : list Z) : col_max x l ∈ x :: l.
Proof.
  unfold col_max. revert x. induction l as [|z l IH]; intros x; simpl.
  - apply list_elem_of_here.
  - specialize (IH (Z.max x z)).
    apply elem_of_cons in IH as [IH|IH].
    + rewrite IH. destruct (Z.max_spec x z) as [[_ ->]|[_ ->]];
        [apply list_elem_of_further, list_elem_of_here | apply list_elem_of_here].
    + now do 2 apply list_elem_of_further.
Qed.

End NumFacts.

(** ** Properties of the Rate Upsampler *)

Section InterpolationFacts.
Import Num Upsampler.

Lemma interp_from_length prev i l : length (interp_from prev i l) = length l.
Proof.
  revert prev i. induction l as [|[v|] l IH]; intros prev i; simpl;
    [reflexivity | now rewrite IH | now rewrite IH].
Qed.

Lemma interp_from_keep prev i l k v :
  l !! k = Some (Some v) -> interp_from prev i l !! k = Some (Some v).
Proof.
  revert prev i k. induction l as [|[w|] l IH]; intros prev i [|k] Hk;
    simpl in *; try discriminate; try assumption; now apply IH.
Qed.

Lemma interp_from_filled p i l :
  Forall is_Some (interp_from (Some p) i l).
Proof.
  revert p i. induction l as [|[w|] l IH]; intros [i0 v0] i; simpl.
  - constructor.
  - constructor; [eauto | apply IH].
  - constructor; [|apply IH]. destruct (next_valid (S i) l) as [[i1 v1]|]; eauto.
Qed.

Lemma next_valid_first i l b v :
  (forall j, (j < b)%nat -> l !! j = Some None) ->
  l !! b = Some (Some v) ->
  next_valid i l = Some ((i + b)%nat, v).
Proof.
  revert i b. induction l as [|[w|] l IH]; intros i b Hnone Hb.
  - destruct b; discriminate.
  - destruct b as [|b].
    + simpl in *. injection Hb as ->. now rewrite Nat.add_0_r.
    + specialize (Hnone 0%nat ltac:(lia)). discriminate.
  - destruct b as [|b]; [discriminate|]. simpl.
    rewrite (IH (S i) b); [f_equal; f_equal; lia | | assumption].
    intros j Hj. apply (Hnone (S j)). lia.
Qed.

(** After a present value [(i0, v0)], up to the next present value the
    column follows the straight line through the two. *)
Lemma interp_from_gap i0 v0 i l b k v1 :
  (forall j, (j < b)%nat -> l !! j = Some None) ->
  l !! b = Some (Some v1) ->
  (k < b)%nat ->
  interp_from (Some (i0, v0)) i l !! k
  = Some (Some ((v1 - v0) / (pos (i + b) - pos i0) * (pos (i + k) - pos i0) + v0)%Qc).
Proof.
  revert i b k. induction l as [|[w|] l IH]; intros i b k Hnone Hb Hk.
  - destruct b; discriminate.
  - specialize (Hnone 0%nat ltac:(lia)). discriminate.
  - destruct b as [|b]; [lia|]. simpl in Hb.
    assert (Hnone' : forall j, (j < b)%nat -> l !! j = Some None).
    { intros j Hj. apply (Hnone (S j)). lia. }
    simpl. rewrite (next_valid_first (S i) l b v1 Hnone' Hb).
    destruct k as [|k]; simpl.
    + now rewrite ?Nat.add_succ_r, ?Nat.add_0_r.
    + rewrite (IH (S i) b k Hnone' Hb ltac:(lia)).
      now rewrite ?Nat.add_succ_r, ?Nat.add_succ_l.
Qed.

Lemma interp_from_between prev i l a b k v0 v1 :
  l !! a = Some (Some v0) ->
  l !! b = Some (Some v1) ->
  (forall j, (a < j < b)%nat -> l !! j = Some None) ->
  (a < k < b)%nat ->
  interp_from prev i l !! k
  = Some (Some ((v1 - v0) / (pos (i + b) - pos (i + a)) * (pos (i + k) - pos (i + a)) + v0)%Qc).
Proof.
  revert prev i a b k. induction l as [|w l IH]; intros prev i a b k Ha Hb Hnone Hk.
  - destruct a; discriminate.
  - destruct b as [|b]; [lia|]. destruct k as [|k]; [lia|].
    destruct a as [|a].
    + simpl in Ha. injection Ha as ->. simpl.
      rewrite (interp_from_gap i v0 (S i) l b k v1); [| |assumption|lia].
      * now rewrite ?Nat.add_succ_r, ?Nat.add_succ_l, ?Nat.add_0_r.
      * intros j Hj. apply (Hnone (S j)). lia.
    + assert (Hstep : forall p, interp_from p (S i) l !! k
                = Some (Some ((v1 - v0) / (pos (i + S b) - pos (i + S a))
                               * (pos (i + S k) - pos (i + S a)) + v0)%Qc)).
      { intros p. rewrite !Nat.add_succ_r, <- !Nat.add_succ_l.
        apply IH; [assumption | assumption | | lia].
        intros j Hj. apply (Hnone (S j)). lia. }
      destruct w as [w|]; simpl; apply Hstep.
Qed.

End InterpolationFacts.

Section ResampleFacts.
Import Num Upsampler.
Local Open Scope Z_scope.

Lemma midnight_inj d d' : Calendar.midnight d = Calendar.midnight d' -> d = d'.
Proof. unfold Calendar.midnight, Calendar.seconds_per_day. lia. Qed.

Lemma at_hour_midnight dmin d k :
  Calendar.at_hour dmin k = Calendar.midnight d <-> k = 24 * (d - dmin).
Proof.
  unfold Calendar.at_hour, Calendar.midnight, Calendar.seconds_per_day,
    Calendar.seconds_per_hour. lia.
Qed.

Lemma reindex_Some anchors d p :
  NoDup (map fst anchors) -> (d, p) ∈ anchors ->
  reindex anchors (Calendar.midnight d) = Some p.
Proof.
  unfold reindex. induction anchors as [|[d' p'] anchors IH]; intros Hnd Hin.
  - now apply not_elem_of_nil in Hin.
  - simpl in Hnd. apply NoDup_cons in Hnd as [Hfresh Hnd]. simpl.
    destruct (Z.eqb_spec (Calendar.midnight d') (Calendar.midnight d)) as [He|Hne].
    + apply midnight_inj in He as ->. simpl.
      apply elem_of_cons in Hin as [Hin|Hin]; [congruence|].
      exfalso. apply Hfresh.
      change (map fst anchors) with (fst <$> anchors).
      apply list_elem_of_fmap. now exists (d, p).
    + apply elem_of_cons in Hin as [Hin|Hin]; [congruence|]. now apply IH.
Qed.

Lemma reindex_None anchors ts :
  (forall d, d ∈ map fst anchors -> Calendar.midnight d <> ts) ->
  reindex anchors ts = None.
Proof.
  unfold reindex. induction anchors as [|[d' p'] anchors IH]; intros Hno;
    [reflexivity|]. simpl.
  destruct (Z.eqb_spec (Calendar.midnight d') ts) as [He|Hne].
  - exfalso. apply (Hno d'); [apply list_elem_of_here | assumption].
  - apply IH. intros d Hd. apply Hno. simpl. now apply list_elem_of_further.
Qed.

Lemma hourly_index_length dmin dmax :
  length (hourly_index dmin dmax) = hours_spanned dmin dmax.
Proof. unfold hourly_index. now rewrite length_map, length_seq. Qed.

Lemma hourly_index_lookup dmin dmax k :
  (k < hours_spanned dmin dmax)%nat ->
  hourly_index dmin dmax !! k = Some (Calendar.at_hour dmin (Z.of_nat k)).
Proof.
  intros Hk. unfold hourly_index.
  change (map ?f ?l) with (f <$> l).
  now rewrite list_lookup_fmap, lookup_seq_lt.
Qed.

Lemma reindexed_lookup anchors dmin dmax k :
  (k < hours_spanned dmin dmax)%nat ->
  map (reindex anchors) (hourly_index dmin dmax) !! k
  = Some (reindex anchors (Calendar.at_hour dmin (Z.of_nat k))).
Proof.
  intros Hk. change (map ?f ?l) with (f <$> l) at 1.
  now rewrite list_lookup_fmap, hourly_index_lookup.
Qed.

Lemma interpolate_linear_filled v l :
  Forall is_Some (interpolate_linear (Some v :: l)).
Proof.
  unfold interpolate_linear. simpl. constructor; [eauto|].
  apply interp_from_filled.
Qed.

Lemma Zc_0 : Zc 0 = 0%Qc.
Proof. now apply Qc_is_canon. Qed.

Lemma segment_algebra (p0 p1 : Qc) (a b k : nat) (h D : Z) :
  Z.of_nat b - Z.of_nat a = D -> Z.of_nat k - Z.of_nat a = h -> D <> 0 ->
  ((p1 - p0) / (pos (0 + b) - pos (0 + a)) * (pos (0 + k) - pos (0 + a)) + p0
   = p0 + (p1 - p0) * Zc h / Zc D)%Qc.
Proof.
  intros HD Hh Hnz. unfold pos. simpl.
  rewrite <- !Zc_sub, HD, Hh.
  field. rewrite <- Zc_0. now apply Zc_nonzero.
Qed.

End ResampleFacts.

Section UpsampleTheorem.
Import Num Upsampler.

Lemma increasingb_sound l : Spec.increasingb l = true -> Spec.increasing l.
Proof.
  induction l as [|x l IH]; intros Hb i a b Ha Hb'.
  - discriminate.
  - destruct l as [|y l]; [destruct i; discriminate|].
    simpl in Hb. destruct (x ?= y)%Qc eqn:Hxy; try discriminate.
    destruct i as [|i].
    + simpl in Ha, Hb'. injection Ha as <-. injection Hb' as <-.
      now apply Qclt_alt.
    + now apply (IH Hb i).
Qed.

End UpsampleTheorem.

Section UpsampleExample.
Import Num Upsampler.

Lemma weekly_rates_example :
  exists out,
    resample_interpolate Samples.weekly_rates = Some out
    /\ length out = 169%nat
    /\ head out = Some (Calendar.midnight (Calendar.days_from_civil 2023 10 1),
                        Some (Zc 1000))
    /\ last out = Some (Calendar.midnight (Calendar.days_from_civil 2023 10 8),
                        Some (Zc 1200))
    /\ length (omap snd out) = 169%nat
    /\ Spec.increasing (omap snd out).
Proof.
  exists (default [] (resample_interpolate Samples.weekly_rates)).
  split; [vm_compute; reflexivity|].
  split; [vm_compute; reflexivity|].
  split; [vm_compute; reflexivity|].
  split; [vm_compute; reflexivity|].
  split; [vm_compute; reflexivity|].
  apply increasingb_sound. vm_compute. reflexivity.
Qed.

(** C2. A weekly series of anchors with distinct dates is upsampled to the
    hourly timestamps from the midnight of its first date to the midnight of
    its last, both included and with no hour outside; every hour carries a
    value, and between two neighbouring anchors that value lies on the straight
    line that joins them (noise comes later).  The anchors (2023-10-01, 1000)
    and (2023-10-08, 1200) give 169 points that rise from 1000 to 1200. *)
Theorem upsampled_series_lies_on_segments :
  (forall anchors : list (Z * Qc),
      anchors <> [] -> NoDup (map fst anchors) ->
      exists dmin dmax out,
        resample_interpolate anchors = Some out
        /\ dmin ∈ map fst anchors /\ dmax ∈ map fst anchors
        /\ (forall d, d ∈ map fst anchors -> (dmin <= d <= dmax)%Z)
        /\ length out = Z.to_nat (24 * (dmax - dmin) + 1)
        /\ (forall k, (k < length out)%nat ->
              exists v, out !! k = Some (Calendar.at_hour dmin (Z.of_nat k), Some v))
        /\ (forall d0 p0 d1 p1 h,
              (d0, p0) ∈ anchors -> (d1, p1) ∈ anchors ->
              Spec.adjacent anchors d0 d1 -> (0 <= h <= 24 * (d1 - d0))%Z ->
              out !! Z.to_nat (24 * (d0 - dmin) + h)
              = Some (Calendar.at_hour d0 h, Some (Spec.segment_value d0 p0 d1 p1 h))))
  /\ (exists out,
        resample_interpolate Samples.weekly_rates = Some out
        /\ length out = 169%nat
        /\ head out = Some (Calendar.midnight (Calendar.days_from_civil 2023 10 1),
                            Some (Zc 1000))
        /\ last out = Some (Calendar.midnight (Calendar.days_from_civil 2023 10 8),
                            Some (Zc 1200))
        /\ length (omap snd out) = 169%nat
        /\ Spec.increasing (omap snd out)).
Proof.
  split; [|exact weekly_rates_example].
  intros anchors.
  intros Hne Hnd. destruct anchors as [|[d p] rest]; [congruence|].
  set (anchors := (d, p) :: rest) in *.
  set (dmin := col_min d (map fst rest)).
  set (dmax := col_max d (map fst rest)).
  set (index := hourly_index dmin dmax).
  set (column := map (reindex anchors) index).
  exists dmin, dmax, (zip index (interpolate_linear column)).
  assert (Hmin : dmin ∈ map fst anchors) by apply col_min_elem.
  assert (Hmax : dmax ∈ map fst anchors) by apply col_max_elem.
  assert (Hbounds : forall x, x ∈ map fst anchors -> (dmin <= x <= dmax)%Z).
  { intros x Hx. simpl in Hx. apply elem_of_cons in Hx as [->|Hx].
    - split; [apply col_min_le | apply col_max_ge].
    - split; [now apply col_min_lower | now apply col_max_upper]. }
  assert (Hspan : hours_spanned dmin dmax = Z.to_nat (24 * (dmax - dmin) + 1))
    by reflexivity.
  assert (Hidx : length index = hours_spanned dmin dmax)
    by apply hourly_index_length.
  assert (Hlen : length (interpolate_linear column) = hours_spanned dmin dmax).
  { unfold interpolate_linear, column.
    now rewrite interp_from_length, length_map. }
  assert (Hanchor : forall x q, (x, q) ∈ anchors ->
            column !! Z.to_nat (24 * (x - dmin)) = Some (Some q)).
  { intros x q Hx.
    assert (Hxin : x ∈ map fst anchors).
    { change (map fst anchors) with (fst <$> anchors).
      apply list_elem_of_fmap. now exists (x, q). }
    apply Hbounds in Hxin as Hxb.
    unfold column, index. rewrite reindexed_lookup by (rewrite Hspan; lia).
    do 2 f_equal. rewrite <- (reindex_Some anchors x q Hnd Hx). f_equal.
    apply at_hour_midnight. lia. }
  assert (Hfilled : Forall is_Some (interpolate_linear column)).
  { change (map fst anchors) with (fst <$> anchors) in Hmin.
    apply list_elem_of_fmap in Hmin as ([x q] & Hx & Hin). simpl in Hx. subst x.
    pose proof (Hanchor _ _ Hin) as H0.
    replace (Z.to_nat (24 * (dmin - dmin))) with 0%nat in H0 by lia.
    destruct column as [|c column']; [discriminate|].
    simpl in H0. injection H0 as ->. apply interpolate_linear_filled. }
  split; [|split; [exact Hmin|split; [exact Hmax|split; [exact Hbounds|split;[|split]]]]].
  - unfold resample_interpolate. fold anchors.
    now rewrite bool_decide_eq_true_2 by exact Hnd.
  - rewrite length_zip, Hidx, Hlen. lia.
  - intros k Hk. rewrite length_zip, Hidx, Hlen in Hk.
    destruct (lookup_lt_is_Some_2 (interpolate_linear column) k) as [o Ho]; [lia|].
    destruct (Forall_lookup_1 _ _ _ _ Hfilled Ho) as [v ->].
    exists v. apply lookup_zip_Some. split; [|assumption].
    apply hourly_index_lookup. lia.
  - intros d0 p0 d1 p1 h H0 H1 [Hlt Hgap] Hh.
    assert (Hd0 : d0 ∈ map fst anchors).
    { change (map fst anchors) with (fst <$> anchors).
      apply list_elem_of_fmap. now exists (d0, p0). }
    assert (Hd1 : d1 ∈ map fst anchors).
    { change (map fst anchors) with (fst <$> anchors).
      apply list_elem_of_fmap. now exists (d1, p1). }
    apply Hbounds in Hd0, Hd1.
    set (a := Z.to_nat (24 * (d0 - dmin))).
    set (b := Z.to_nat (24 * (d1 - dmin))).
    set (k := Z.to_nat (24 * (d0 - dmin) + h)).
    apply lookup_zip_Some. split.
    { unfold index. rewrite hourly_index_lookup by (rewrite Hspan; lia).
      f_equal. unfold Calendar.at_hour, Calendar.midnight,
        Calendar.seconds_per_day, Calendar.seconds_per_hour. lia. }
    pose proof (Hanchor _ _ H0) as Ha. pose proof (Hanchor _ _ H1) as Hb.
    fold a in Ha. fold b in Hb. unfold interpolate_linear, Spec.segment_value.
    destruct (Z.eq_dec h 0%Z) as [->|Hh0].
    { replace k with a by lia. rewrite (interp_from_keep _ _ _ _ _ Ha).
      do 2 f_equal. rewrite Zc_0. field.
      rewrite <- Zc_0. apply Zc_nonzero. lia. }
    destruct (Z.eq_dec h (24 * (d1 - d0))%Z) as [->|Hh1].
    { replace k with b by lia. rewrite (interp_from_keep _ _ _ _ _ Hb).
      do 2 f_equal. field. rewrite <- Zc_0. apply Zc_nonzero. lia. }
    rewrite (interp_from_between None 0 column a b k p0 p1 Ha Hb); [| |lia].
    + do 2 f_equal. apply segment_algebra; lia.
    + intros j Hj. unfold column, index.
      rewrite reindexed_lookup by (rewrite Hspan; lia).
      f_equal. apply reindex_None. intros x Hx Hmid.
      symmetry in Hmid. apply at_hour_midnight in Hmid. apply (Hgap x Hx). lia.
Qed.

Lemma upsampled_series_lies_on_segments_witness :
  exists dmin dmax out,
    resample_interpolate Samples.weekly_rates = Some out
    /\ dmin ∈ map fst Samples.weekly_rates /\ dmax ∈ map fst Samples.weekly_rates
    /\ (forall d, d ∈ map fst Samples.weekly_rates -> (dmin <= d <= dmax)%Z)
    /\ length out = Z.to_nat (24 * (dmax - dmin) + 1)
    /\ (forall k, (k < length out)%nat ->
          exists v, out !! k = Some (Calendar.at_hour dmin (Z.of_nat k), Some v))
    /\ (forall d0 p0 d1 p1 h,
          (d0, p0) ∈ Samples.weekly_rates -> (d1, p1) ∈ Samples.weekly_rates ->
          Spec.adjacent Samples.weekly_rates d0 d1 -> (0 <= h <= 24 * (d1 - d0))%Z ->
          out !! Z.to_nat (24 * (d0 - dmin) + h)
          = Some (Calendar.at_hour d0 h, Some (Spec.segment_value d0 p0 d1 p1 h))).
Proof.
  refine (proj1 upsampled_series_lies_on_segments Samples.weekly_rates _ _).
  - discriminate.
  - apply (bool_decide_unpack _). vm_compute. exact I.
Defined.

End UpsampleExample.

(** ** Properties of the transform *)

Section JoinFacts.
Import Num Orchestrator.

Lemma same_day_true (r : rate) (a : daily) :
  same_day r a = true <-> d_event_date a = Some (Calendar.date_of_timestamp (Date r)).
Proof.
  unfold same_day. destruct (d_event_date a) as [d|].
  - rewrite Z.eqb_eq. split; [now intros -> | now intros [= ->]].
  - split; discriminate.
Qed.

Lemma elem_of_join (rates : list rate) (news : list daily) (g : gold_row) :
  g ∈ join_rates_news rates news <->
  exists r a, r ∈ rates /\ a ∈ news
              /\ d_event_date a = Some (Calendar.date_of_timestamp (Date r))
              /\ g = select_gold r a.
Proof.
  unfold join_rates_news. rewrite list_elem_of_bind. split.
  - intros (r & Hg & Hr). apply list_elem_of_fmap in Hg as (a & -> & Ha).
    apply list_elem_of_filter in Ha as [Hsame Ha].
    exists r, a. now rewrite <- same_day_true.
  - intros (r & a & Hr & Ha & Hd & ->). exists r. split; [|assumption].
    apply list_elem_of_fmap. exists a. split; [reflexivity|].
    apply list_elem_of_filter. now rewrite same_day_true.
Qed.

Lemma elem_of_aggregate (rows : list news_row) (a : daily) :
  a ∈ aggregate_daily rows <->
  d_event_date a ∈ map event_date rows
  /\ d_news_count a = Z.of_nat (length (group (d_event_date a) rows))
  /\ d_avg_conflict_score a = avg (map conflict_intensity (group (d_event_date a) rows)).
Proof.
  unfold aggregate_daily. change (map ?f ?l) with (f <$> l) at 1.
  rewrite list_elem_of_fmap. split.
  - intros (k & -> & Hk). rewrite elem_of_remove_dups in Hk.
    cbn [d_event_date d_news_count d_avg_conflict_score]. auto.
  - intros (Hk & Hn & Hs). exists (d_event_date a).
    split; [|now apply elem_of_remove_dups].
    destruct a; simpl in *. now subst.
Qed.

End JoinFacts.

Section ScoreFacts.
Import Num Orchestrator.

Ltac qc_some :=
  vm_compute; apply (f_equal Some); apply Qc_is_canon; reflexivity.

Lemma group_clean_news (k : option Z) (docs : list news_doc) :
  group k (clean_news <$> docs)
  = clean_news <$> filter (fun d => event_date (clean_news d) = k) docs.
Proof.
  unfold group. induction docs as [|d docs IH]; [reflexivity|].
  rewrite fmap_cons.
  destruct (decide (event_date (clean_news d) = k)) as [Hk|Hk].
  - rewrite !filter_cons_True by assumption. now rewrite fmap_cons, IH.
  - now rewrite !filter_cons_False by assumption.
Qed.

Lemma intensities_of_docs (docs : list news_doc) :
  omap id (map conflict_intensity (clean_news <$> docs))
  = (fun t => t * Zc (-1))%Qc <$> omap Tone docs.
Proof.
  induction docs as [|d docs IH]; [reflexivity|].
  rewrite fmap_cons. cbn [map omap list_omap conflict_intensity clean_news].
  change (list_omap ?f ?l) with (omap f l). change (list_fmap _ _ ?f ?l) with (f <$> l).
  rewrite IH. destruct (Tone d) as [t|]; reflexivity.
Qed.

Lemma sum_inverted (ts : list Qc) :
  sum ((fun t => t * Zc (-1))%Qc <$> ts) = (- sum ts)%Qc.
Proof.
  induction ts as [|t ts IH].
  - now apply Qc_is_canon.
  - rewrite fmap_cons. change (sum (?x :: ?l)) with (x + sum l)%Qc.
    rewrite IH. replace (Zc (-1)) with (- (1))%Qc by now apply Qc_is_canon.
    ring.
Qed.

Lemma avg_inverted (docs : list news_doc) :
  avg (map conflict_intensity (clean_news <$> docs)) = Qcopp <$> Spec.mean_tone docs.
Proof.
  unfold avg, Spec.mean_tone. rewrite intensities_of_docs.
  destruct (omap Tone docs) as [|t ts]; [reflexivity|].
  rewrite fmap_cons. cbv beta iota.
  change (sum (?x :: ?l)) with (x + sum l)%Qc.
  rewrite sum_inverted. cbn [length]. rewrite length_fmap.
  cbn [fmap option_fmap option_map]. f_equal.
  replace (Zc (-1)) with (- (1))%Qc by now apply Qc_is_canon.
  unfold Qcdiv. ring.
Qed.

Lemma elem_of_load_data (gold : list gold_row) (row : Dashboard.df_row) :
  row ∈ Dashboard.load_data (Some gold) <->
  exists g, g ∈ gold /\ row = Dashboard.preprocess g.
Proof.
  unfold Dashboard.load_data. rewrite list_elem_of_fmap.
  split; intros (g & Hrow & Hg); exists g; split; try assumption.
  - now rewrite merge_sort_Permutation in Hg.
  - now rewrite merge_sort_Permutation.
Qed.

(** C5 fails on the code as stated: for three articles of one day with tone
    -0.3125 each, the product of the count and the score is 0.9375 while the
    dashboard's risk score is 0.94 (and three times the displayed score,
    0.31, is 0.93). *)
Lemma risk_score_is_not_the_product :
  exists g row,
    df_final Samples.fractional_stores = [g]
    /\ Dashboard.load_data
         (Gold_Analytics_RedSea (transform_data_with_spark Samples.fractional_stores).1)
       = [row]
    /\ news_count g = 3%Z
    /\ avg_conflict_score g = Some (Q2Qc (5 # 16))
    /\ Dashboard.Risk_Score row = Some (Q2Qc (94 # 100))
    /\ Dashboard.Risk_Score row
       <> Spec.risk_product (news_count g) (avg_conflict_score g)
    /\ Dashboard.Risk_Score row
       <> Spec.risk_product (Dashboard.news_count row) (Dashboard.avg_conflict_score row).
Proof.
  eexists _, _.
  split; [vm_compute; reflexivity|].
  split; [vm_compute; reflexivity|].
  split; [reflexivity|].
  split; [qc_some|].
  split; [qc_some|].
  split; intros Heq; apply (f_equal (fmap this)) in Heq;
    vm_compute in Heq; discriminate.
Qed.

(** C5, amended. In every row of the joined frame the count is the number of
    that day's news records and the score is the sign-inverted mean of their
    tones; the gold table stores no risk score, and the dashboard computes it
    on loading as the count times the score, rounded to two decimals.  Three
    articles of mean tone -4 joined to a rate give count 3, score 4 and risk
    score 12. *)
Theorem gold_scores_and_rounded_risk :
  (forall s g, g ∈ df_final s ->
     let docs := Spec.docs_of_day (Calendar.date_of_timestamp (full_date g))
                                  (raw_gdelt_events s) in
     news_count g = Z.of_nat (length docs)
     /\ avg_conflict_score g = Qcopp <$> Spec.mean_tone docs)
  /\ (forall gold row, row ∈ Dashboard.load_data (Some gold) ->
        exists g, g ∈ gold
          /\ Dashboard.full_date row = full_date g
          /\ Dashboard.news_count row = news_count g
          /\ Dashboard.Risk_Score row
             = round2 <$> Spec.risk_product (news_count g) (avg_conflict_score g))
  /\ (exists g row,
        df_final Samples.october_stores = [g]
        /\ Spec.mean_tone
             (Spec.docs_of_day (Calendar.days_from_civil 2023 10 5)
                (raw_gdelt_events Samples.october_stores)) = Some (Zc (-4))
        /\ news_count g = 3%Z
        /\ avg_conflict_score g = Some (Zc 4)
        /\ Dashboard.load_data
             (Gold_Analytics_RedSea (transform_data_with_spark Samples.october_stores).1)
           = [row]
        /\ Dashboard.Risk_Score row = Some (Zc 12)).
Proof.
  split; [|split].
  - intros s g Hg docs.
    apply elem_of_join in Hg as (r & a & Hr & Ha & Hd & ->).
    apply elem_of_aggregate in Ha as (_ & Hn & Hs).
    cbn [news_count avg_conflict_score full_date select_gold].
    rewrite Hn, Hs, Hd, group_clean_news, length_fmap, avg_inverted.
    split; reflexivity.
  - intros gold row (g & Hg & ->)%elem_of_load_data.
    exists g. repeat split; assumption || reflexivity.
  - eexists _, _.
    split; [vm_compute; reflexivity|].
    split; [qc_some|].
    split; [reflexivity|].
    split; [qc_some|].
    split; [vm_compute; reflexivity|].
    qc_some.
Qed.

End ScoreFacts.

(** ** The join, in the words of its contract *)

Section JoinSpecFacts.
Import Num Orchestrator Spec.

Lemma filter_fmap {A B} (f : A -> B) (P : B -> Prop) `{!forall x, Decision (P x)}
    (l : list A) :
  filter P (f <$> l) = f <$> filter (fun x => P (f x)) l.
Proof.
  induction l as [|x l IH]; [reflexivity|]. rewrite fmap_cons.
  destruct (decide (P (f x))) as [Hx|Hx].
  - rewrite !filter_cons_True by exact Hx. now rewrite fmap_cons, IH.
  - now rewrite !filter_cons_False by exact Hx.
Qed.

Lemma calendar_date_truncates (ts : Z) :
  calendar_date ts = Calendar.date_of_timestamp ts.
Proof.
  unfold calendar_date, Calendar.date_of_timestamp, Calendar.seconds_per_day.
  pose proof (Z.div_mod ts 86400 ltac:(lia)) as Hdm.
  replace (ts - ts mod 86400)%Z with (ts / 86400 * 86400)%Z by lia.
  apply Z.div_mul. lia.
Qed.

Lemma on_day_truncates (ts day : Z) :
  on_day ts day <-> Calendar.date_of_timestamp ts = day.
Proof.
  unfold on_day, Calendar.midnight, Calendar.date_of_timestamp, Calendar.seconds_per_day.
  pose proof (Z.div_mod ts 86400 ltac:(lia)) as Hdm.
  pose proof (Z.mod_pos_bound ts 86400 ltac:(lia)) as Hmod.
  split.
  - intros [Hlo Hhi]. symmetry. apply (Z.div_unique ts 86400 day (ts - 86400 * day)); lia.
  - intros <-. lia.
Qed.

Lemma filter_eq_NoDup {A} `{EqDecision A} (k : A) (l : list A) :
  NoDup l -> filter (fun x => x = k) l = if decide (k ∈ l) then [k] else [].
Proof.
  induction 1 as [|x l Hx Hnd IH]; [reflexivity|].
  destruct (decide (x = k)) as [->|Hxk].
  - rewrite filter_cons_True by reflexivity. rewrite IH.
    rewrite decide_False by exact Hx.
    now rewrite decide_True by apply list_elem_of_here.
  - rewrite filter_cons_False by exact Hxk. rewrite IH.
    destruct (decide (k ∈ l)) as [Hin|Hin].
    + now rewrite decide_True by now apply list_elem_of_further.
    + rewrite decide_False; [reflexivity|].
      intros [Heq|Hin']%elem_of_cons; [now subst | contradiction].
Qed.

Lemma aggregates_of_day (day : Z) (docs : list news_doc) :
  filter (fun a => d_event_date a = Some day) (aggregate_daily (clean_news <$> docs))
  = match docs_of_day day docs with
    | [] => []
    | _ :: _ => [day_aggregate day docs]
    end.
Proof.
  unfold aggregate_daily. change (map ?f ?l) with (f <$> l).
  rewrite filter_fmap. cbn [d_event_date].
  rewrite filter_eq_NoDup by apply NoDup_remove_dups.
  assert (Hg : group (Some day) (clean_news <$> docs) = clean_news <$> docs_of_day day docs)
    by apply group_clean_news.
  destruct (decide (Some day ∈ _)) as [Hin|Hout].
  - rewrite elem_of_remove_dups in Hin. change (map ?f ?l) with (f <$> l) in Hin.
    apply list_elem_of_fmap in Hin as (row & Hrow & Hin).
    apply list_elem_of_fmap in Hin as (d & -> & Hin).
    assert (Hd : d ∈ docs_of_day day docs)
      by (apply list_elem_of_filter; split; [now symmetry | exact Hin]).
    destruct (docs_of_day day docs) as [|d0 ds] eqn:Hdocs;
      [now apply not_elem_of_nil in Hd|].
    cbn [fmap list_fmap]. f_equal. unfold day_aggregate. rewrite Hg.
    f_equal.
    + now rewrite length_fmap, Hdocs.
    + rewrite avg_inverted. now rewrite Hdocs.
  - destruct (docs_of_day day docs) as [|d0 ds] eqn:Hdocs; [reflexivity|].
    exfalso. apply Hout. rewrite elem_of_remove_dups.
    change (map ?f ?l) with (f <$> l).
    assert (Hd : d0 ∈ docs_of_day day docs) by (rewrite Hdocs; apply list_elem_of_here).
    apply list_elem_of_filter in Hd as [Hk Hd]. rewrite <- Hk.
    now apply list_elem_of_fmap_2, list_elem_of_fmap_2.
Qed.

Lemma df_final_inner_join (s : stores) :
  df_final s = inner_join (Staging_Rates s) (raw_gdelt_events s).
Proof.
  unfold df_final, join_rates_news, inner_join.
  induction (Staging_Rates s) as [|r rates IH]; [reflexivity|].
  rewrite !bind_cons, IH. f_equal.
  rewrite (list_filter_iff _ (fun a => d_event_date a
                                       = Some (Calendar.date_of_timestamp (Date r))))
    by (intros a; apply same_day_true).
  rewrite aggregates_of_day, calendar_date_truncates.
  unfold day_aggregate.
  destruct (docs_of_day (Calendar.date_of_timestamp (Date r)) (raw_gdelt_events s));
    reflexivity.
Qed.

Lemma elem_of_inner_join (rates : list rate) (docs : list news_doc) (g : gold_row) :
  g ∈ inner_join rates docs <->
  exists r day, r ∈ rates /\ on_day (Date r) day
                /\ docs_of_day day docs <> []
                /\ g = gold_row_of r (docs_of_day day docs).
Proof.
  unfold inner_join. rewrite list_elem_of_bind. split.
  - intros (r & Hg & Hr). exists r, (calendar_date (Date r)).
    split; [exact Hr|]. split; [apply on_day_truncates; symmetry; apply calendar_date_truncates|].
    destruct (docs_of_day (calendar_date (Date r)) docs) as [|d ds];
      [now apply not_elem_of_nil in Hg|].
    split; [discriminate|]. now apply list_elem_of_singleton in Hg.
  - intros (r & day & Hr & Hday & Hne & ->). exists r. split; [|exact Hr].
    apply on_day_truncates in Hday. rewrite calendar_date_truncates, Hday.
    destruct (docs_of_day day docs) as [|d ds]; [congruence|].
    apply list_elem_of_here.
Qed.

Lemma transform_unfold (s : stores) :
  transform_data_with_spark s
  = match df_final s with
    | [] => (s, NoMatchingDates)
    | _ :: _ =>
        ({| raw_gdelt_events := raw_gdelt_events s;
            Staging_Rates := Staging_Rates s;
            Gold_Analytics_RedSea := Some (df_final s) |},
         Saved (length (df_final s)))
    end.
Proof. unfold transform_data_with_spark. now destruct (df_final s). Qed.

(** C1, amended. On a collection whose day keys are null or calendar days,
    the joined frame holds one row exactly for each pair of a rate-hour and
    a news day such that the rate's timestamp falls on that day, built from
    the rate and the documents of the day; a rate-hour whose day has no news
    and a news day without a rate-hour leave no row.  A joined frame that is
    not empty replaces the gold table; an empty one is not written, and the
    stores, the gold table included, stay as they were. *)
Theorem gold_is_inner_join_on_date (s : stores) :
  day_keys_parse s = true ->
  (forall g, g ∈ df_final s <->
     exists r day, r ∈ Staging_Rates s /\ on_day (Date r) day
                   /\ docs_of_day day (raw_gdelt_events s) <> []
                   /\ g = gold_row_of r (docs_of_day day (raw_gdelt_events s)))
  /\ df_final s ≡ₚ inner_join (Staging_Rates s) (raw_gdelt_events s)
  /\ (forall r day, r ∈ Staging_Rates s -> on_day (Date r) day ->
        docs_of_day day (raw_gdelt_events s) = [] ->
        forall g, g ∈ df_final s -> full_date g <> Date r)
  /\ (forall day, docs_of_day day (raw_gdelt_events s) <> [] ->
        (forall r, r ∈ Staging_Rates s -> ~ on_day (Date r) day) ->
        forall g, g ∈ df_final s -> ~ on_day (full_date g) day)
  /\ (df_final s <> [] ->
        same_table (Gold_Analytics_RedSea (transform_data_with_spark s).1)
                   (Some (inner_join (Staging_Rates s) (raw_gdelt_events s)))
        /\ (transform_data_with_spark s).2
           = Saved (length (inner_join (Staging_Rates s) (raw_gdelt_events s))))
  /\ (df_final s = [] -> transform_data_with_spark s = (s, NoMatchingDates)).
Proof.
  intros _. rewrite transform_unfold, df_final_inner_join.
  split; [intros g; apply elem_of_inner_join|].
  split; [reflexivity|].
  split; [|split; [|split]].
  - intros r day Hr Hday Hnone g Hg Heq.
    apply elem_of_inner_join in Hg as (r' & day' & Hr' & Hday' & Hne & ->).
    cbn [full_date gold_row_of] in Heq.
    apply on_day_truncates in Hday, Hday'. rewrite Heq, Hday in Hday'.
    subst day'. contradiction.
  - intros day Hne Hno g Hg Hon.
    apply elem_of_inner_join in Hg as (r & day' & Hr & Hday' & _ & ->).
    cbn [full_date gold_row_of] in Hon. exact (Hno r Hr Hon).
  - intros Hne. destruct (inner_join _ _) as [|g l]; [congruence|].
    cbn [fst snd Gold_Analytics_RedSea same_table]. split; reflexivity.
  - intros ->. reflexivity.
Qed.

End JoinSpecFacts.

Lemma gold_row_ext (a b : Orchestrator.gold_row) :
  Orchestrator.full_date a = Orchestrator.full_date b ->
  Orchestrator.g_Price a = Orchestrator.g_Price b ->
  Orchestrator.news_count a = Orchestrator.news_count b ->
  Orchestrator.avg_conflict_score a = Orchestrator.avg_conflict_score b ->
  a = b.
Proof. destruct a, b; simpl; congruence. Qed.

Lemma gold_is_inner_join_on_date_witness :
  Orchestrator.df_final Samples.october_stores
  ≡ₚ [ {| Orchestrator.full_date := 1696489200;
          Orchestrator.g_Price := Num.Zc 1100;
          Orchestrator.news_count := 3;
          Orchestrator.avg_conflict_score := Some (Num.Zc 4) |} ].
Proof.
  destruct (gold_is_inner_join_on_date Samples.october_stores eq_refl)
    as (_ & Hjoin & _).
  etransitivity; [exact Hjoin|].
  match goal with
  | |- ?l ≡ₚ _ => let l' := eval vm_compute in l in change l with l'
  end.
  apply Permutation_cons; [|reflexivity].
  apply gold_row_ext; cbn.
  - reflexivity.
  - apply Qc_is_canon. reflexivity.
  - reflexivity.
  - apply (f_equal Some). apply Qc_is_canon. reflexivity.
Defined.

Section JoinCounterexamples.
Import Num Orchestrator Spec.

(** C1 fails on the code as stated: with one article of 2023-10-06 and one
    rate of 2023-10-07 no rate-hour meets a news day, the run writes
    nothing, and the gold table keeps the rows of 2024-02-05 that an earlier
    run left there. *)
Lemma stale_gold_outlives_empty_join :
  exists gold g,
    day_keys_parse Samples.unmatched_stores = true
    /\ (forall r day, r ∈ Staging_Rates Samples.unmatched_stores ->
          on_day (Date r) day ->
          docs_of_day day (raw_gdelt_events Samples.unmatched_stores) = [])
    /\ Gold_Analytics_RedSea (transform_data_with_spark Samples.unmatched_stores).1
       = Some gold
    /\ g ∈ gold
    /\ (forall r, r ∈ Staging_Rates Samples.unmatched_stores -> full_date g <> Date r).
Proof.
  exists Samples.february_gold.
  eexists. split; [reflexivity|]. split; [|split; [|split]].
  - intros r day Hr Hday. apply on_day_truncates in Hday. subst day.
    apply list_elem_of_singleton in Hr. subst r. vm_compute. reflexivity.
  - vm_compute. reflexivity.
  - apply list_elem_of_here.
  - intros r Hr. apply list_elem_of_singleton in Hr. subst r.
    vm_compute. discriminate.
Qed.

End JoinCounterexamples.

Section DeterminismFacts.
Import PyStr Num Orchestrator Spec.











End DeterminismFacts.


(** ** Properties of the Upsampler's run, the dashboard and the news ingest *)

Section RunFacts.
Import Num.

(** C8. Without the weekly file the Upsampler exits with status 1, which is
    not zero, and leaves the directory as it was, so no output file is
    written; with the weekly file of the two anchors, dated in ISO form, it
    completes and writes the 169 hourly rows. *)
Theorem upsampler_fails_fast_without_source :
  (forall to_datetime noise fs,
      Upsampler.rates_csv fs = None ->
      Upsampler.upsample_rates to_datetime noise fs = (Upsampler.Exited 1, fs)
      /\ (1 <> 0)%Z)
  /\ (forall noise, exists rows,
        Upsampler.upsample_rates Calendar.parse_iso_date noise Samples.weekly_files
        = (Upsampler.Completed,
           {| Upsampler.rates_csv := Upsampler.rates_csv Samples.weekly_files;
              Upsampler.upsampled_rates_csv := Some rows |})
        /\ length rows = 169%nat).
Proof.
  split.
  - intros to_datetime noise fs Habsent. unfold Upsampler.upsample_rates.
    rewrite Habsent. split; [reflexivity | discriminate].
  - intros noise.
    destruct weekly_rates_example as (out & Hout & Hlen & _).
    unfold Upsampler.upsample_rates. cbn [Upsampler.rates_csv Samples.weekly_files].
    replace (mapM _ _) with (Some (map fst Samples.weekly_rates))
      by (vm_compute; reflexivity).
    replace (zip _ _) with Samples.weekly_rates by reflexivity.
    rewrite Hout. eexists. split; [reflexivity|].
    now rewrite length_imap.
Qed.

Lemma upsampler_fails_fast_without_source_witness :
  Upsampler.upsample_rates Calendar.parse_iso_date (fun _ => Zc 0)
    {| Upsampler.rates_csv := None; Upsampler.upsampled_rates_csv := None |}
  = (Upsampler.Exited 1,
     {| Upsampler.rates_csv := None; Upsampler.upsampled_rates_csv := None |})
  /\ (1 <> 0)%Z.
Proof.
  exact (proj1 upsampler_fails_fast_without_source Calendar.parse_iso_date
           (fun _ => Zc 0)
           {| Upsampler.rates_csv := None; Upsampler.upsampled_rates_csv := None |}
           eq_refl).
Defined.

Lemma date_window_clamps_one_side (df : list Dashboard.df_row) (w : Dashboard.window) :
  Dashboard.date_window df = Some w ->
  (Dashboard.min_date w <= Dashboard.default_start w)%Z
  /\ (Dashboard.default_end w <= Dashboard.max_date w)%Z
  /\ (Dashboard.min_date w <= Dashboard.max_date w)%Z.
Proof.
  unfold Dashboard.date_window.
  destruct (Calendar.date_of_timestamp <$> (Dashboard.full_date <$> df)) as [|d ds];
    [discriminate|].
  intros [= <-]. cbn [Dashboard.min_date Dashboard.max_date
                      Dashboard.default_start Dashboard.default_end].
  pose proof (col_min_le d ds). pose proof (col_max_ge d ds).
  destruct (Z.ltb_spec Dashboard.crisis_start (col_min d ds)),
           (Z.ltb_spec (col_max d ds) Dashboard.crisis_end); lia.
Qed.

(** C9 fails on the code: for a gold table whose rows are all of 2024-02-05,
    after the hard-coded window, the default end stays 2024-01-31 and lies
    before the first date of the data. *)
Theorem default_window_escapes_late_data :
  exists w,
    Dashboard.date_window (Dashboard.load_data (Some Samples.february_gold)) = Some w
    /\ Dashboard.min_date w = Calendar.days_from_civil 2024 2 5
    /\ Dashboard.max_date w = Calendar.days_from_civil 2024 2 5
    /\ Dashboard.default_start w = Calendar.days_from_civil 2024 2 5
    /\ Dashboard.default_end w = Calendar.days_from_civil 2024 1 31
    /\ ~ Spec.within_bounds w (Dashboard.default_end w).
Proof.
  eexists. split; [vm_compute; reflexivity|].
  repeat (split; [vm_compute; reflexivity|]).
  unfold Spec.within_bounds. vm_compute. intros [Hlo _]. now apply Hlo.
Qed.

End RunFacts.

Section IngestFacts.
Import Orchestrator.

(** C10. The news ingest issues the delete before any read or insert; when
    it returns an error the documents of the collection are those of the
    mined file that the failed insert had stored, or none when the file could
    not be read, whatever the collection held before; a collection that was
    not empty is therefore changed by a run whose read fails. *)
Theorem ingest_empties_collection_first (w : ingest_world) :
  let w' := (ingest_news_to_mongo w).1 in
  let msg := (ingest_news_to_mongo w).2 in
  (exists rest, log w' = (log w ++ DeleteMany :: ReadCsv :: rest)%list
                /\ (DeleteMany ∉ rest) /\ (ReadCsv ∉ rest))
  /\ (forall what, msg = Error what ->
        collection w'
        = match historical_news_raw_csv w with
          | Some records => take (default 0%nat (insert_fault w)) records
          | None => []
          end)
  /\ (forall what prior, msg = Error what ->
        (ingest_news_to_mongo (set_collection prior w)).2 = msg
        /\ collection (ingest_news_to_mongo (set_collection prior w)).1 = collection w')
  /\ (historical_news_raw_csv w = None ->
        (exists what, msg = Error what) /\ collection w' = []
        /\ (collection w <> [] -> collection w' <> collection w)).
Proof.
  unfold ingest_news_to_mongo, insert_many, delete_many, issue, set_collection.
  cbn [collection historical_news_raw_csv insert_fault log].
  destruct (historical_news_raw_csv w) as [[|r records]|] eqn:Hcsv;
    [| destruct (insert_fault w) as [k|] eqn:Hfault |];
    cbn [fst snd collection log app default];
    rewrite <- ?app_assoc; cbn [app].
  - split; [|split; [|split]]; try discriminate.
    exists []. repeat split; apply not_elem_of_nil.
  - split; [|split; [|split]]; try discriminate.
    + exists [InsertMany (S (length records))]. split; [reflexivity|].
      split; intros [=]%list_elem_of_singleton.
    + intros _ _. reflexivity.
    + intros what prior _. split; reflexivity.
  - split; [|split; [|split]]; try discriminate.
    exists [InsertMany (S (length records))]. split; [reflexivity|].
    split; intros [=]%list_elem_of_singleton.
  - split; [|split; [|split]].
    + exists []. repeat split; apply not_elem_of_nil.
    + intros _ _. reflexivity.
    + intros what prior _. split; reflexivity.
    + intros _. split; [eauto|]. split; [reflexivity|]. intros Hne Heq. now apply Hne.
Qed.

Lemma ingest_empties_collection_first_witness :
  (ingest_news_to_mongo Samples.stale_world).2 = Error "read_csv"
  /\ collection (ingest_news_to_mongo Samples.stale_world).1 = []
  /\ collection (ingest_news_to_mongo Samples.stale_world).1
     <> collection Samples.stale_world.
Proof.
  pose proof (ingest_empties_collection_first Samples.stale_world)
    as (_ & _ & _ & Hread).
  destruct (Hread eq_refl) as (_ & Hempty & Hchanged).
  split; [reflexivity|]. split; [exact Hempty|].
  apply Hchanged. discriminate.
Defined.

End IngestFacts.

(** ** Further properties of the Event Miner *)

Section MinerLoopFacts.
Import PyStr.
Context `{PyRuntime}.

Lemma process_row_event (id : Z) (r : Miner.row) (g g' : rng_state) (e : Miner.event) :
  Miner.process_row id r g = Some (e, g') ->
  Miner.GlobalEventID e = id
  /\ int_of_digits (Miner.cleaned_date (Miner.date_raw (Miner.norm_row r)))
     = Some (Miner.Day e)
  /\ Miner.Country e = "YEM"
  /\ Miner.SourceURL e = Miner.url_val (Miner.norm_row r)
  /\ Miner.SourceURL e <> "".
Proof.
  unfold Miner.process_row. cbv zeta.
  destruct (int_of_digits _) as [day|]; [|discriminate].
  destruct (truthy (Miner.url_val _)) eqn:Hu; [|discriminate].
  destruct (Miner.tone_val _ g) as [tv g2]. intros [= <- <-].
  cbn. repeat split. now apply truthy_true.
Qed.

Lemma parse_and_write_numbering (rows : list Miner.row)
    (written : list Miner.event) (start_id : Z) (g : rng_state) :
  exists new,
    (Miner.parse_and_write rows written start_id g).1.1 = (written ++ new)%list
    /\ (Miner.parse_and_write rows written start_id g).1.2
       = (start_id + Z.of_nat (length new))%Z
    /\ Miner.GlobalEventID <$> new = seqZ start_id (Z.of_nat (length new))
    /\ (length new <= length rows)%nat.
Proof.
  revert written start_id g.
  induction rows as [|r rows IH]; intros written start_id g; simpl.
  - exists []. rewrite app_nil_r. cbn. split; [reflexivity|].
    split; [lia|]. split; [reflexivity|]. lia.
  - destruct (Miner.process_row start_id r g) as [[e g']|] eqn:Hrow.
    + destruct (IH (written ++ [e])%list (start_id + 1)%Z g')
        as (new & Hw & Hid & Hids & Hlen).
      exists (e :: new). rewrite Hw, Hid, <- app_assoc. cbn [length].
      rewrite Nat2Z.inj_succ.
      split; [reflexivity|]. split; [lia|]. split; [|lia].
      rewrite fmap_cons, Hids.
      apply process_row_event in Hrow as (-> & _).
      rewrite (seqZ_cons start_id) by lia. f_equal. f_equal; lia.
    + destruct (IH written start_id g) as (new & Hw & Hid & Hids & Hlen).
      exists new. repeat split; try assumption. lia.
Qed.


End MinerLoopFacts.

Section StripFacts.
Import PyStr.

Lemma lstrip_head (s : string) :
  match lstrip s with String c _ => isspace c = false | EmptyString => True end.
Proof.
  induction s as [|c s IH]; simpl; [exact I|].
  destruct (isspace c) eqn:Hc; [exact IH | exact Hc].
Qed.

Lemma lstrip_suffix (s : string) :
  exists pre, chars s = (pre ++ chars (lstrip s))%list.
Proof.
  induction s as [|c s [pre IH]]; simpl.
  - now exists [].
  - destruct (isspace c).
    + exists (c :: pre). simpl. now rewrite IH.
    + now exists [].
Qed.

Lemma rstrip_prefix (s : string) :
  exists post, chars s = (chars (rstrip s) ++ post)%list.
Proof.
  unfold rstrip. rewrite chars_str.
  destruct (lstrip_suffix (str (rev (chars s)))) as [pre Hpre].
  rewrite chars_str in Hpre. exists (rev pre).
  rewrite <- rev_app_distr, <- Hpre. now rewrite rev_involutive.
Qed.

Lemma strip_clean_ends (s : string) : Shape.clean_ends (strip s).
Proof.
  unfold Shape.clean_ends, strip. split.
  - destruct (rstrip_prefix (lstrip s)) as [post Hpost].
    destruct (chars (rstrip (lstrip s))) as [|c l]; [exact I|].
    pose proof (lstrip_head s) as Hhead.
    destruct (lstrip s) as [|c' s']; [discriminate|].
    simpl in Hpost. now injection Hpost as -> _.
  - unfold rstrip. rewrite chars_str, rev_involutive.
    pose proof (lstrip_head (str (rev (chars (lstrip s))))) as Hhead.
    now destruct (lstrip (str (rev (chars (lstrip s))))).
Qed.

Lemma isdigit_value (c : ascii) :
  isdigit c = true -> (0 <= digit_value c <= 9)%Z.
Proof.
  unfold isdigit, digit_value. intros [Hlo Hhi]%andb_prop.
  apply Nat.leb_le in Hlo, Hhi. lia.
Qed.

Lemma digits_number_bound (l : list ascii) (acc : Z) :
  forallb isdigit l = true -> (0 <= acc)%Z ->
  (0 <= fold_left (fun a c => 10 * a + digit_value c) l acc
   < (acc + 1) * 10 ^ Z.of_nat (length l))%Z.
Proof.
  revert acc. induction l as [|c l IH]; intros acc Hd Hacc.
  - simpl. lia.
  - apply andb_prop in Hd as [Hc Hl]. apply isdigit_value in Hc.
    cbn [fold_left length]. rewrite Nat2Z.inj_succ, Z.pow_succ_r by lia.
    specialize (IH (10 * acc + digit_value c)%Z Hl ltac:(lia)).
    assert (0 < 10 ^ Z.of_nat (length l))%Z by (apply Z.pow_pos_nonneg; lia).
    nia.
Qed.

Lemma cleaned_date_length (raw : string) :
  (length (chars (Miner.cleaned_date raw)) <= 8)%nat.
Proof.
  unfold Miner.cleaned_date, slice_to. rewrite chars_str, length_take. lia.
Qed.

Lemma int_of_digits_bound (s : string) (n : Z) :
  int_of_digits s = Some n -> (0 <= n < 10 ^ Z.of_nat (length (chars s)))%Z.
Proof.
  unfold int_of_digits. destruct (chars s) as [|c l] eqn:Hs; [discriminate|].
  destruct (forallb isdigit (c :: l)) eqn:Hd; [|discriminate].
  intros [= <-]. pose proof (digits_number_bound (c :: l) 0 Hd ltac:(lia)) as Hb.
  cbn [fold_left] in Hb. lia.
Qed.

End StripFacts.

Section MinerShapeFacts.
Import PyStr.
Context `{PyRuntime}.

Lemma process_row_well_formed (id : Z) (r : Miner.row) (g g' : rng_state)
    (e : Miner.event) :
  Miner.process_row id r g = Some (e, g') -> Shape.well_formed_event e.
Proof.
  intros (_ & Hday & Hc & Hu & Hne)%process_row_event.
  unfold Shape.well_formed_event. split; [|split; [|split]]; try assumption.
  - apply int_of_digits_bound in Hday.
    pose proof (cleaned_date_length (Miner.date_raw (Miner.norm_row r))) as Hlen.
    assert (10 ^ Z.of_nat (length (chars (Miner.cleaned_date
              (Miner.date_raw (Miner.norm_row r))))) <= 10 ^ 8)%Z
      by (apply Z.pow_le_mono_r; lia).
    lia.
  - rewrite Hu. apply strip_clean_ends.
Qed.

(** X2. Whatever the response holds, every record that [parse_and_write]
    adds to the file has a day between 0 and 99999999, the country code YEM
    and a URL that is not empty and has no blank at either end. *)
Theorem parse_and_write_keeps_records_well_formed (rows : list Miner.row)
    (written : list Miner.event) (start_id : Z) (g : rng_state) (e : Miner.event) :
  e ∈ (Miner.parse_and_write rows written start_id g).1.1 ->
  e ∈ written \/ Shape.well_formed_event e.
Proof.
  revert written start_id g.
  induction rows as [|r rows IH]; intros written start_id g; simpl.
  - now left.
  - destruct (Miner.process_row start_id r g) as [[e' g']|] eqn:Hrow.
    + intros [He|He]%IH; [|now right].
      apply elem_of_app in He as [He|He]; [now left|].
      apply list_elem_of_singleton in He as ->. right.
      now apply process_row_well_formed in Hrow.
    + apply IH.
Qed.

End MinerShapeFacts.

Lemma parse_and_write_keeps_records_well_formed_witness :
  @Miner.Build_event SampleRuntime.runtime 100000 20231020 "YEM"
    (Num.Zc (-4)) "https://example.org/b"
    ∈ (@Miner.parse_and_write SampleRuntime.runtime
         [Samples.row_with_tone] [] 100000 0%nat).1.1
  /\ @Shape.well_formed_event SampleRuntime.runtime
       (@Miner.Build_event SampleRuntime.runtime 100000 20231020 "YEM"
          (Num.Zc (-4)) "https://example.org/b").
Proof.
  set (e := @Miner.Build_event SampleRuntime.runtime 100000 20231020 "YEM"
              (Num.Zc (-4)) "https://example.org/b").
  assert (Hin : e ∈ (@Miner.parse_and_write SampleRuntime.runtime
                       [Samples.row_with_tone] [] 100000 0%nat).1.1).
  { unfold Miner.parse_and_write, Miner.process_row. cbv zeta.
    replace (PyStr.int_of_digits _) with (Some 20231020%Z) by (vm_compute; reflexivity).
    replace (Miner.url_val _) with "https://example.org/b" by (vm_compute; reflexivity).
    replace (Miner.tone_str _) with (Some "-4") by (vm_compute; reflexivity).
    apply list_elem_of_here. }
  split; [exact Hin|].
  destruct (@parse_and_write_keeps_records_well_formed SampleRuntime.runtime
              _ _ _ _ e Hin) as [Hold|Hwf].
  - exact (match not_elem_of_nil _ Hold with end).
  - exact Hwf.
Defined.

Section MinerSkipFacts.
Import PyStr.
Context `{PyRuntime}.

Lemma cleaned_date_all_digits (raw : string) :
  forallb isdigit (chars (Miner.cleaned_date raw)) = true.
Proof.
  unfold Miner.cleaned_date, slice_to, digits_of. rewrite !chars_str.
  apply forallb_forall. intros c Hc%list_elem_of_In.
  apply elem_of_take in Hc as (i & Hc & _).
  apply list_elem_of_lookup_2, list_elem_of_filter in Hc. tauto.
Qed.

Lemma date_parses_iff_digit (raw : string) :
  int_of_digits (Miner.cleaned_date raw) = None <-> digits_of raw = "".
Proof.
  pose proof (cleaned_date_all_digits raw) as Hd.
  unfold int_of_digits.
  assert (Hc : chars (Miner.cleaned_date raw) = take 8 (chars (digits_of raw)))
    by (unfold Miner.cleaned_date, slice_to; apply chars_str).
  destruct (chars (Miner.cleaned_date raw)) as [|c l] eqn:Hs.
  - split; [|reflexivity]. intros _.
    rewrite <- (str_chars (digits_of raw)).
    destruct (chars (digits_of raw)); [reflexivity | discriminate].
  - rewrite Hd. split; [discriminate|]. intros Hraw.
    rewrite Hraw in Hc. discriminate.
Qed.

Lemma process_row_skips (id : Z) (r : Miner.row) (g : rng_state) :
  Miner.process_row id r g = None
  <-> digits_of (Miner.date_raw (Miner.norm_row r)) = ""
      \/ Miner.url_val (Miner.norm_row r) = "".
Proof.
  unfold Miner.process_row. cbv zeta.
  rewrite <- date_parses_iff_digit, <- truthy_false.
  destruct (int_of_digits _) as [day|]; [|tauto].
  destruct (truthy (Miner.url_val _)).
  - destruct (Miner.tone_val _ g). split; [discriminate|]. intros [|]; discriminate.
  - tauto.
Qed.

(** X3. A row of ASCII text is skipped exactly when its date field holds no
    digit or its URL is empty once stripped; the tone plays no part. *)
Theorem row_skipped_iff_no_digit_or_blank_url (id : Z) (r : Miner.row) (g : rng_state) :
  Shape.ascii_row r = true ->
  Miner.process_row id r g = None
  <-> digits_of (Miner.date_raw (Miner.norm_row r)) = ""
      \/ Miner.url_val (Miner.norm_row r) = "".
Proof. intros _. apply process_row_skips. Qed.

Lemma parse_and_write_app (a b : list Miner.row) (written : list Miner.event)
    (start_id : Z) (g : rng_state) :
  Miner.parse_and_write (a ++ b) written start_id g
  = let '(w1, id1, g1) := Miner.parse_and_write a written start_id g in
    Miner.parse_and_write b w1 id1 g1.
Proof.
  revert written start_id g. induction a as [|r a IH]; intros written start_id g.
  - reflexivity.
  - simpl. destruct (Miner.process_row start_id r g) as [[e g']|]; apply IH.
Qed.

(** X4. Rows that are skipped leave no trace: a response with such a row
    anywhere in it gives the same file, the same next identifier and the
    same generator state as the response without it. *)
Theorem skipped_row_leaves_no_trace (a b : list Miner.row) (r : Miner.row)
    (written : list Miner.event) (start_id : Z) (g : rng_state) :
  digits_of (Miner.date_raw (Miner.norm_row r)) = ""
  \/ Miner.url_val (Miner.norm_row r) = "" ->
  Miner.parse_and_write (a ++ r :: b) written start_id g
  = Miner.parse_and_write (a ++ b) written start_id g.
Proof.
  intros Hskip. rewrite !parse_and_write_app.
  destruct (Miner.parse_and_write a written start_id g) as [[w1 id1] g1].
  simpl. now rewrite (proj2 (process_row_skips id1 r g1) Hskip).
Qed.

End MinerSkipFacts.

Lemma row_skipped_iff_no_digit_or_blank_url_witness :
  @Miner.process_row SampleRuntime.runtime 100000
    [("Date", Some "n/a"); ("URL", Some "https://example.org/d");
     ("Tone", Some "-2")] 0%nat = None
  /\ @Miner.process_row SampleRuntime.runtime 100000
       [("Date", Some "2023-10-19"); ("URL", Some "https://example.org/d")] 0%nat
     <> None.
Proof.
  split.
  - apply (@row_skipped_iff_no_digit_or_blank_url SampleRuntime.runtime);
      [reflexivity | left; vm_compute; reflexivity].
  - intros Hskip.
    apply (@row_skipped_iff_no_digit_or_blank_url SampleRuntime.runtime) in Hskip;
      [|reflexivity].
    destruct Hskip as [Hd|Hu]; vm_compute in Hd || vm_compute in Hu; discriminate.
Defined.

Lemma skipped_row_leaves_no_trace_witness :
  @Miner.parse_and_write SampleRuntime.runtime
    ([Samples.row_with_tone] ++ [("Date", Some "20231019"); ("URL", Some "   ")]
       :: [Samples.row_without_tone]) [] 100000 0%nat
  = @Miner.parse_and_write SampleRuntime.runtime
      ([Samples.row_with_tone] ++ [Samples.row_without_tone]) [] 100000 0%nat.
Proof.
  apply (@skipped_row_leaves_no_trace SampleRuntime.runtime).
  right. vm_compute. reflexivity.
Defined.

Section HeaderFacts.
Import PyStr.

Lemma norm_row_last_item (r : Miner.row) (name : string) :
  Miner.norm_row r !! name = snd <$> Shape.last_column name r.
Proof.
  unfold Miner.norm_row, Shape.last_column.
  induction r as [|[k v] r IH] using rev_ind; [reflexivity|].
  unfold Miner.row in *.
  rewrite fold_left_app, filter_app, last_app. cbn [fold_left fst snd].
  destruct (truthy k) eqn:Hk.
  - destruct (decide (strip (lstrip_bom k) = name)) as [Hn|Hn].
    + rewrite filter_cons_True by (split; [now apply truthy_true | exact Hn]).
      rewrite filter_nil. cbn. rewrite Hn. apply lookup_insert_eq.
    + rewrite filter_cons_False by tauto. rewrite filter_nil. cbn.
      rewrite lookup_insert_ne by exact Hn. exact IH.
  - apply truthy_false in Hk as ->.
    rewrite filter_cons_False by tauto. rewrite filter_nil. exact IH.
Qed.

Lemma dict_set_fresh (k : string) (v : option string) (items : Miner.row) :
  k ∉ fst <$> items -> Miner.dict_set k v items = (items ++ [(k, v)])%list.
Proof.
  induction items as [|[k' v'] items IH]; intros Hk; [reflexivity|].
  rewrite fmap_cons in Hk. apply not_elem_of_cons in Hk as [Hne Hk].
  cbn [Miner.dict_set app]. destruct (String.eqb_spec k' k) as [->|_]; [contradiction|].
  now rewrite IH.
Qed.

Lemma dict_of_distinct_columns (columns : list (string * option string)) :
  NoDup (fst <$> columns) -> Miner.dict_of_columns columns = columns.
Proof.
  unfold Miner.dict_of_columns.
  assert (Hgen : forall items,
    NoDup (fst <$> (items ++ columns)%list) ->
    fold_left (fun items kv => Miner.dict_set kv.1 kv.2 items) columns items
    = (items ++ columns)%list).
  { induction columns as [|[k v] columns IH]; intros items Hnd.
    - cbn. now rewrite app_nil_r.
    - cbn [fold_left fst snd]. rewrite dict_set_fresh.
      + rewrite IH; rewrite <- app_assoc; [reflexivity | exact Hnd].
      + rewrite fmap_app, fmap_cons in Hnd. apply NoDup_app in Hnd as (_ & Hdis & _).
        intros Hin. apply (Hdis k Hin). apply list_elem_of_here. }
  intros Hnd. now rewrite (Hgen [] Hnd).
Qed.

(** X5. In a line of ASCII text, looking a name up in the normalised row
    gives the cell of the last item of the reader's dict whose field name,
    without leading U+FEFF and surrounding blanks, is that name; items with
    an empty name are ignored and a name no item carries gives [None].  When
    the field names of the line are distinct the dict holds the columns as
    they stand, so the cell is that of the last such column. *)
Theorem norm_row_finds_last_clean_header (columns : list (string * option string))
    (name : string) :
  Shape.ascii_row columns = true ->
  Miner.norm_row (Miner.dict_of_columns columns) !! name
  = snd <$> Shape.last_column name (Miner.dict_of_columns columns)
  /\ (NoDup (fst <$> columns) ->
      Miner.norm_row (Miner.dict_of_columns columns) !! name
      = snd <$> Shape.last_column name columns).
Proof.
  intros _. split; [apply norm_row_last_item|].
  intros Hnd. rewrite dict_of_distinct_columns by exact Hnd. apply norm_row_last_item.
Qed.

Lemma append_empty_r (s : string) : s ++ "" = s.
Proof.
  induction s as [|c s IH]; [reflexivity|].
  change (String c (s ++ "") = String c s). now f_equal.
Qed.

Lemma split_nonempty (sep : ascii) (s : string) : MinerRun.split sep s <> [].
Proof.
  destruct s as [|c s]; simpl; [discriminate|].
  destruct (Ascii.eqb c sep); [discriminate|].
  destruct (MinerRun.split sep s); discriminate.
Qed.

Lemma join_split (sep : ascii) (s : string) :
  MinerRun.join (String sep EmptyString) (MinerRun.split sep s) = s.
Proof.
  induction s as [|c s IH]; [reflexivity|]. simpl MinerRun.split.
  pose proof (split_nonempty sep s) as Hne.
  destruct (Ascii.eqb_spec c sep) as [->|Hc].
  - destruct (MinerRun.split sep s) as [|f fs]; [congruence|].
    cbn [MinerRun.join]. cbn [MinerRun.join] in IH. rewrite IH. reflexivity.
  - destruct (MinerRun.split sep s) as [|f fs]; [congruence|].
    cbn [MinerRun.join] in *. destruct fs as [|f' fs].
    + now rewrite IH.
    + rewrite <- IH. reflexivity.
Qed.

Lemma split_head_no_sep (sep : ascii) (s : string) (first : string) (names : list string) :
  MinerRun.split sep s = first :: names -> sep ∉ chars first.
Proof.
  revert first names. induction s as [|c s IH]; intros first names; simpl.
  - intros [= <- <-]. apply not_elem_of_nil.
  - destruct (Ascii.eqb_spec c sep) as [->|Hc].
    + intros [= <- <-]. apply not_elem_of_nil.
    + destruct (MinerRun.split sep s) as [|f fs] eqn:Hs.
      * intros [= <- <-]. simpl. intros [?|[]%not_elem_of_nil]%elem_of_cons.
        congruence.
      * intros [= <- <-]. simpl. intros [?|Hin]%elem_of_cons; [congruence|].
        now apply (IH f fs).
Qed.

(** X6. Cleaning the header rewrites the first column name only: the line
    is that name, which holds no comma, followed by a tail that is empty or
    starts with a comma, and the cleaned line is the name without leading
    U+FEFF and surrounding blanks followed by the same tail. *)
Theorem clean_header_touches_first_name_only (line : string) :
  exists first tail,
    line = first ++ tail
    /\ ("," %char ∉ chars first)
    /\ (tail = "" \/ exists rest, tail = String "," rest)
    /\ MinerRun.clean_header line = strip (lstrip_bom first) ++ tail.
Proof.
  unfold MinerRun.clean_header.
  pose proof (join_split "," line) as Hline.
  destruct (MinerRun.split "," line) as [|first names] eqn:Hsplit.
  - now apply split_nonempty in Hsplit.
  - apply split_head_no_sep in Hsplit.
    destruct names as [|n names].
    + exists first, "". cbn [MinerRun.join] in *.
      rewrite !append_empty_r. auto.
    + exists first, ("," ++ MinerRun.join "," (n :: names)).
      cbn [MinerRun.join] in *. repeat split; eauto.
Qed.

End HeaderFacts.

Lemma norm_row_finds_last_clean_header_witness :
  Miner.norm_row
    (Miner.dict_of_columns
       [("URL", Some "https://example.org/a"); ("Date", Some "20231019");
        (PyStr.BOM ++ " URL ", Some "https://example.org/b")]) !! "URL"
  = Some (Some "https://example.org/b")
  /\ Miner.norm_row
       (Miner.dict_of_columns
          [("URL", Some "https://first"); (" URL", Some "https://middle");
           ("URL", Some "https://last")]) !! "URL"
     = Some (Some "https://middle").
Proof.
  split.
  - refine (eq_trans
      (proj2 (norm_row_finds_last_clean_header
                [("URL", Some "https://example.org/a"); ("Date", Some "20231019");
                 (PyStr.BOM ++ " URL ", Some "https://example.org/b")]
                "URL" eq_refl) _) _).
    + cbv [fmap list_fmap fst]. apply (bool_decide_unpack _). vm_compute. reflexivity.
    + vm_compute. reflexivity.
  - refine (eq_trans
      (proj1 (norm_row_finds_last_clean_header
                [("URL", Some "https://first"); (" URL", Some "https://middle");
                 ("URL", Some "https://last")]
                "URL" eq_refl)) _).
    vm_compute. reflexivity.
Defined.

(** ** Properties of the Miner's run *)

Section MainFacts.
Import PyStr MinerRun.
Context `{PyRuntime}.
Variable http_get : request -> option string.
Variable DictReader : list string -> list Miner.row.

Lemma one_day_issued (current : Z) (st : run) :
  issued (one_day http_get DictReader current st)
  = (issued st ++ [day_request current])%list.
Proof.
  unfold one_day. destruct (fetch_day_csv http_get current) as [csv_text|];
    [|reflexivity].
  destruct (contains "SQLDATE" csv_text || contains "Date" csv_text); [|reflexivity].
  now destruct (parse_and_write_text _ _ _ _ _) as [[written next_id] g].
Qed.

Lemma one_day_unusable (current : Z) (st : run) :
  ~ Shape.usable (http_get (day_request current)) ->
  f_out (one_day http_get DictReader current st) = f_out st
  /\ global_id_counter (one_day http_get DictReader current st) = global_id_counter st
  /\ generator (one_day http_get DictReader current st) = generator st.
Proof.
  unfold one_day, fetch_day_csv, Shape.usable.
  destruct (http_get (day_request current)) as [csv_text|]; [|auto].
  destruct (contains "SQLDATE" csv_text || contains "Date" csv_text); [|auto].
  intros Hno. now contradiction Hno.
Qed.

Lemma one_day_numbered (current : Z) (st : run) :
  Shape.numbered_from_100000 (f_out st) (global_id_counter st) ->
  Shape.numbered_from_100000 (f_out (one_day http_get DictReader current st))
                             (global_id_counter (one_day http_get DictReader current st)).
Proof.
  intros Hst. unfold one_day.
  destruct (fetch_day_csv http_get current) as [csv_text|]; [|exact Hst].
  destruct (contains "SQLDATE" csv_text || contains "Date" csv_text); [|exact Hst].
  unfold parse_and_write_text.
  destruct (splitlines (strip csv_text)) as [|header lines]; [exact Hst|].
  destruct (parse_and_write_numbering
              (DictReader (clean_header header :: lines))
              (f_out st) (global_id_counter st) (generator st))
    as (new & Hw & Hid & Hids & _).
  destruct (Miner.parse_and_write _ _ _ _) as [[written next_id] g].
  cbn [fst snd] in Hw, Hid. cbn [f_out global_id_counter]. subst written next_id.
  destruct Hst as [Hcounter Hfile]. unfold Shape.numbered_from_100000.
  rewrite length_app, Nat2Z.inj_add, fmap_app, Hfile, Hids, Hcounter.
  split; [lia|]. rewrite seqZ_app by lia. reflexivity.
Qed.

Lemma main_loop_numbered (fuel : nat) (current : Z) (st : run) :
  Shape.numbered_from_100000 (f_out st) (global_id_counter st) ->
  Shape.numbered_from_100000
    (f_out (main_loop http_get DictReader fuel current st))
    (global_id_counter (main_loop http_get DictReader fuel current st)).
Proof.
  revert current st. induction fuel as [|fuel IH]; intros current st Hst; simpl.
  - exact Hst.
  - destruct (current <=? end_date)%Z; [|exact Hst].
    apply IH. now apply one_day_numbered.
Qed.

(** X7. However the API answers, the file that [main] leaves is numbered
    100000, 100001, ... without gap or repetition across all days, and the
    total printed at the end is the number of records in the file. *)
Theorem main_numbers_the_whole_file (g : rng_state) :
  let st := main http_get DictReader g in
  Miner.GlobalEventID <$> f_out st = seqZ 100000 (Z.of_nat (length (f_out st)))
  /\ NoDup (Miner.GlobalEventID <$> f_out st)
  /\ total_rows_mined st = Z.of_nat (length (f_out st)).
Proof.
  intros st.
  assert (Hst : Shape.numbered_from_100000 (f_out st) (global_id_counter st)).
  { apply main_loop_numbered. split; reflexivity. }
  destruct Hst as [Hcounter Hfile].
  split; [exact Hfile|]. split.
  - rewrite Hfile. apply NoDup_seqZ.
  - unfold total_rows_mined. lia.
Qed.

Lemma main_loop_issued (fuel : nat) (current : Z) (st : run) :
  issued (main_loop http_get DictReader fuel current st)
  = (issued st
     ++ (day_request <$> seqZ current (Z.min (Z.of_nat fuel) (end_date - current + 1))))%list.
Proof.
  revert current st. induction fuel as [|fuel IH]; intros current st.
  - simpl main_loop. rewrite seqZ_nil by lia. now rewrite app_nil_r.
  - cbn [main_loop]. destruct (Z.leb_spec current end_date) as [Hle|Hgt].
    + rewrite IH, one_day_issued, <- app_assoc. f_equal.
      rewrite (seqZ_cons current) by lia. rewrite fmap_cons. cbn [app].
      f_equal. f_equal. f_equal; lia.
    + rewrite seqZ_nil by lia. now rewrite app_nil_r.
Qed.

Lemma main_loop_fuel (fuel : nat) (current : Z) (st : run) :
  (end_date - current + 1 <= Z.of_nat fuel)%Z ->
  main_loop http_get DictReader fuel current st
  = main_loop http_get DictReader (Z.to_nat (end_date - current + 1)) current st.
Proof.
  revert current st. induction fuel as [|fuel IH]; intros current st Hfuel.
  - replace (Z.to_nat (end_date - current + 1)) with 0%nat by lia. reflexivity.
  - cbn [main_loop]. destruct (Z.leb_spec current end_date) as [Hle|Hgt].
    + replace (Z.to_nat (end_date - current + 1))
        with (S (Z.to_nat (end_date - (current + 1) + 1))) by lia.
      cbn [main_loop]. rewrite (proj2 (Z.leb_le _ _) Hle). apply IH. lia.
    + replace (Z.to_nat (end_date - current + 1)) with 0%nat by lia. reflexivity.
Qed.

(** X8. However the API answers, errors included, [main] issues exactly one
    request per day from 2023-10-19 to 2024-02-08, 113 in all and in order,
    each from 00:00:00 to 23:59:59 of its day; the loop stops on its own
    condition, so a larger bound on its turns changes nothing. *)
Theorem main_requests_every_day_once (g : rng_state) (extra : nat) :
  issued (main http_get DictReader g) = day_request <$> seqZ start_date 113
  /\ startdatetime <$> head (issued (main http_get DictReader g))
     = Some "20231019000000"
  /\ enddatetime <$> last (issued (main http_get DictReader g))
     = Some "20240208235959"
  /\ Forall (fun day =>
               startdatetime (day_request day) = slice_to 8 (startdatetime (day_request day)) ++ "000000"
               /\ enddatetime (day_request day) = slice_to 8 (startdatetime (day_request day)) ++ "235959"
               /\ Calendar.parse_yyyyMMdd (slice_to 8 (startdatetime (day_request day)))
                  = Some day)
            (seqZ start_date 113)
  /\ main_loop http_get DictReader (days_to_run + extra) start_date
       {| f_out := []; global_id_counter := 100000; generator := g; issued := [] |}
     = main http_get DictReader g.
Proof.
  assert (Hissued : issued (main http_get DictReader g)
                    = day_request <$> seqZ start_date 113).
  { unfold main. rewrite main_loop_issued. reflexivity. }
  split; [exact Hissued|]. rewrite Hissued.
  split; [vm_compute; reflexivity|].
  split; [vm_compute; reflexivity|].
  split.
  - apply Forall_forall. intros day Hday.
    apply (bool_decide_unpack _).
    revert day Hday. apply Forall_forall.
    apply (bool_decide_unpack _). vm_compute. exact I.
  - unfold main. rewrite main_loop_fuel; [reflexivity|].
    unfold days_to_run. vm_compute end_date. vm_compute start_date. lia.
Qed.

(** X9. A day whose request raises, or whose response mentions neither
    [SQLDATE] nor [Date], is passed over: when no day gives a usable
    response the file stays empty, the counter stays at 100000 and no random
    draw is made, while all 113 requests are still issued. *)
Theorem main_survives_failures (g : rng_state) :
  (forall day, ~ Shape.usable (http_get (day_request day))) ->
  f_out (main http_get DictReader g) = []
  /\ global_id_counter (main http_get DictReader g) = 100000%Z
  /\ generator (main http_get DictReader g) = g
  /\ length (issued (main http_get DictReader g)) = 113%nat.
Proof.
  intros Hnone.
  assert (Hloop : forall fuel current st,
            f_out (main_loop http_get DictReader fuel current st) = f_out st
            /\ global_id_counter (main_loop http_get DictReader fuel current st)
               = global_id_counter st
            /\ generator (main_loop http_get DictReader fuel current st) = generator st).
  { induction fuel as [|fuel IH]; intros current st; simpl; [auto|].
    destruct (current <=? end_date)%Z; [|auto].
    destruct (IH (current + 1)%Z (one_day http_get DictReader current st))
      as (-> & -> & ->).
    apply one_day_unusable, Hnone. }
  unfold main. destruct (Hloop days_to_run start_date
    {| f_out := []; global_id_counter := 100000; generator := g; issued := [] |})
    as (-> & -> & ->).
  repeat split. rewrite main_loop_issued. reflexivity.
Qed.

End MainFacts.

Lemma main_survives_failures_witness :
  MinerRun.f_out
    (@MinerRun.main SampleRuntime.runtime (fun _ => None) (fun _ => []) 0%nat) = [].
Proof.
  apply (@main_survives_failures SampleRuntime.runtime (fun _ => None) (fun _ => [])).
  intros day Husable. exact Husable.
Defined.

(** ** Further properties of the Rate Upsampler *)

Section SegmentOrder.
Import Num Upsampler.

Lemma Q_on_segment (v0 v1 lo hi a k b : Q) :
  (a < k)%Q -> (k < b)%Q -> (lo <= v0 <= hi)%Q -> (lo <= v1 <= hi)%Q ->
  (lo <= (v1 - v0) / (b - a) * (k - a) + v0 <= hi)%Q.
Proof.
  intros Hak Hkb [Hl0 Hh0] [Hl1 Hh1].
  set (t := ((k - a) / (b - a))%Q).
  assert (Hd : (0 < b - a)%Q) by lra.
  assert (Ht0 : (0 <= t)%Q).
  { unfold t. apply Qle_shift_div_l; [exact Hd | lra]. }
  assert (Ht1 : (t <= 1)%Q).
  { unfold t. apply Qle_shift_div_r; [exact Hd | lra]. }
  assert (He : ((v1 - v0) / (b - a) * (k - a) + v0 == (v1 - v0) * t + v0)%Q).
  { unfold t. field. lra. }
  rewrite He. split; nra.
Qed.

Lemma Qc_on_segment (v0 v1 lo hi : Qc) (i0 i i1 : nat) :
  (i0 < i)%nat -> (i < i1)%nat -> (lo <= v0 <= hi)%Qc -> (lo <= v1 <= hi)%Qc ->
  (lo <= (v1 - v0) / (pos i1 - pos i0) * (pos i - pos i0) + v0 <= hi)%Qc.
Proof.
  intros H0 H1 Hv0 Hv1.
  unfold Qcle, Qcdiv, Qcminus, Qcplus, Qcopp, Qcmult, Qcinv, pos, Zc in *.
  cbn [this Q2Qc] in *. rewrite ?Qred_correct in *.
  apply Q_on_segment; try assumption; rewrite <- Zlt_Qlt; lia.
Qed.

Lemma next_valid_Some (i : nat) (l : list (option Qc)) (i1 : nat) (v1 : Qc) :
  next_valid i l = Some (i1, v1) -> (i <= i1)%nat /\ Some v1 ∈ l.
Proof.
  revert i. induction l as [|[w|] l IH]; intros i; simpl.
  - discriminate.
  - intros [= <- <-]. split; [lia | apply list_elem_of_here].
  - intros [Hle Hin]%IH. split; [lia | now apply list_elem_of_further].
Qed.

Lemma interp_from_within (lo hi : Qc) (prev : option (nat * Qc)) (i : nat)
    (l : list (option Qc)) :
  (forall i0 v0, prev = Some (i0, v0) -> (i0 < i)%nat /\ (lo <= v0 <= hi)%Qc) ->
  Forall (Shape.within lo hi) l ->
  Forall (Shape.within lo hi) (interp_from prev i l).
Proof.
  revert prev i. induction l as [|[w|] l IH]; intros prev i Hprev Hl; simpl.
  - constructor.
  - apply Forall_cons in Hl as [Hw Hl]. constructor; [exact Hw|].
    apply IH; [|exact Hl]. intros i0 v0 [= <- <-]. split; [lia | now apply Hw].
  - apply Forall_cons in Hl as [_ Hl]. constructor.
    + destruct prev as [[i0 v0]|]; [|intros v; discriminate].
      destruct (Hprev i0 v0 eq_refl) as [Hi0 Hv0].
      destruct (next_valid (S i) l) as [[i1 v1]|] eqn:Hnext.
      * apply next_valid_Some in Hnext as [Hi1 Hin].
        intros v [= <-]. apply Qc_on_segment; [lia | lia | exact Hv0 |].
        rewrite Forall_forall in Hl. now apply (Hl _ Hin).
      * intros v [= <-]. exact Hv0.
    + apply IH; [|exact Hl]. intros i0 v0 Hp.
      destruct (Hprev i0 v0 Hp). split; [lia | assumption].
Qed.

End SegmentOrder.

Section ResampleMore.
Import Num Upsampler.

Lemma reindex_elem (anchors : list (Z * Qc)) (ts : Z) (q : Qc) :
  reindex anchors ts = Some q -> exists d, (d, q) ∈ anchors.
Proof.
  unfold reindex. destruct (List.find _ anchors) as [[d p]|] eqn:Hfind;
    [|discriminate].
  intros [= <-]. apply find_some in Hfind as [Hin _].
  exists d. now apply list_elem_of_In.
Qed.

Lemma resample_shape (anchors : list (Z * Qc)) (out : list (Z * option Qc)) :
  anchors <> [] -> resample_interpolate anchors = Some out ->
  exists dmin dmax,
    NoDup (map fst anchors)
    /\ (forall d, d ∈ map fst anchors -> (dmin <= d <= dmax)%Z)
    /\ out = zip (hourly_index dmin dmax)
                 (interpolate_linear (map (reindex anchors) (hourly_index dmin dmax))).
Proof.
  intros Hne. destruct anchors as [|[d p] rest]; [congruence|].
  unfold resample_interpolate.
  destruct (bool_decide (NoDup (map fst ((d, p) :: rest)))) eqn:Hnd; [|discriminate].
  apply bool_decide_eq_true_1 in Hnd. intros [= <-].
  exists (col_min d (map fst rest)), (col_max d (map fst rest)).
  split; [exact Hnd|]. split; [|reflexivity].
  intros x Hx. simpl in Hx. apply elem_of_cons in Hx as [->|Hx].
  - split; [apply col_min_le | apply col_max_ge].
  - split; [now apply col_min_lower | now apply col_max_upper].
Qed.

(** X10. Before noise is added the hourly series never leaves the range of
    the weekly prices: bounds that hold for every anchor hold for every
    value of the upsampled series. *)
Theorem upsampled_values_stay_in_anchor_range (anchors : list (Z * Qc))
    (out : list (Z * option Qc)) (lo hi : Qc) :
  resample_interpolate anchors = Some out ->
  (forall d p, (d, p) ∈ anchors -> (lo <= p <= hi)%Qc) ->
  forall ts v, (ts, Some v) ∈ out -> (lo <= v <= hi)%Qc.
Proof.
  intros Hout Hbounds ts v Hin.
  destruct anchors as [|a rest] eqn:Ha.
  - injection Hout as <-. now apply not_elem_of_nil in Hin.
  - rewrite <- Ha in *.
    destruct (resample_shape anchors out ltac:(subst; discriminate) Hout)
      as (dmin & dmax & _ & _ & ->).
    apply elem_of_zip_r in Hin.
    assert (Hall : Forall (Shape.within lo hi)
                     (interpolate_linear (map (reindex anchors) (hourly_index dmin dmax)))).
    { apply interp_from_within; [discriminate|].
      apply Forall_forall. intros o Ho q ->.
      change (map ?f ?l) with (f <$> l) in Ho.
      apply list_elem_of_fmap in Ho as (t & Ht & _). symmetry in Ht.
      apply reindex_elem in Ht as [d Hd]. now apply (Hbounds d). }
    rewrite Forall_forall in Hall. now apply (Hall _ Hin).
Qed.

Lemma upsampled_values_stay_in_anchor_range_witness :
  exists ts v,
    default [] (resample_interpolate Samples.weekly_rates) !! 84%nat = Some (ts, Some v)
    /\ (Zc 1000 <= v <= Zc 1200)%Qc.
Proof.
  eexists _, _. split; [vm_compute; reflexivity|].
  destruct (resample_interpolate Samples.weekly_rates) as [out|] eqn:Hout;
    [|vm_compute in Hout; discriminate].
  refine (upsampled_values_stay_in_anchor_range Samples.weekly_rates out
            (Zc 1000) (Zc 1200) Hout _ _ _ _).
  - intros d p [Hp|[Hp|Hp%not_elem_of_nil]%elem_of_cons]%elem_of_cons; [| |done];
      injection Hp as _ ->; split; vm_compute; discriminate.
  - apply (list_elem_of_lookup_2 _ 84).
    assert (Hout' : out = default [] (resample_interpolate Samples.weekly_rates))
      by now rewrite Hout.
    rewrite Hout'. vm_compute. reflexivity.
Defined.

(** X11. Every anchor is reproduced: the upsampled series holds, at the
    midnight of each weekly date, exactly the weekly price; and a series of a
    single anchor is upsampled to that one point. *)
Theorem anchors_are_reproduced (anchors : list (Z * Qc))
    (out : list (Z * option Qc)) (d : Z) (p : Qc) :
  resample_interpolate anchors = Some out ->
  (d, p) ∈ anchors ->
  (Calendar.midnight d, Some p) ∈ out
  /\ resample_interpolate [(d, p)] = Some [(Calendar.midnight d, Some p)].
Proof.
  intros Hout Hin. split.
  - destruct (resample_shape anchors out) as (dmin & dmax & Hnd & Hb & ->);
      [intros ->; now apply not_elem_of_nil in Hin | exact Hout |].
    assert (Hd : d ∈ map fst anchors).
    { change (map fst anchors) with (fst <$> anchors).
      apply list_elem_of_fmap. now exists (d, p). }
    pose proof (Hb d Hd) as Hdb.
    assert (Hmin : (dmin <= dmax)%Z) by lia.
    set (k := Z.to_nat (24 * (d - dmin))).
    assert (Hk : (k < hours_spanned dmin dmax)%nat) by (unfold hours_spanned; lia).
    assert (Hat : Calendar.at_hour dmin (Z.of_nat k) = Calendar.midnight d)
      by (apply at_hour_midnight; lia).
    apply (list_elem_of_lookup_2 _ k). apply lookup_zip_Some. split.
    + now rewrite hourly_index_lookup, Hat.
    + apply interp_from_keep. rewrite reindexed_lookup by exact Hk.
      now rewrite Hat, (reindex_Some anchors d p Hnd Hin).
  - unfold resample_interpolate.
    rewrite bool_decide_eq_true_2 by (apply NoDup_singleton).
    cbn [map fst col_min col_max fold_left].
    unfold hourly_index, hours_spanned. rewrite Z.sub_diag.
    replace (Z.to_nat (24 * 0 + 1)) with 1%nat by reflexivity.
    cbn [seq map Z.of_nat].
    assert (Hat : Calendar.at_hour d 0 = Calendar.midnight d)
      by (apply at_hour_midnight; lia).
    change (Z.of_nat 0) with 0%Z. rewrite Hat. unfold reindex. cbn [List.find fst]. rewrite Z.eqb_refl.
    reflexivity.
Qed.

Lemma anchors_are_reproduced_witness :
  (Calendar.midnight (Calendar.days_from_civil 2023 10 8), Some (Zc 1200))
    ∈ default [] (resample_interpolate Samples.weekly_rates).
Proof.
  destruct (resample_interpolate Samples.weekly_rates) as [out|] eqn:Hout.
  - apply (anchors_are_reproduced Samples.weekly_rates out _ _ Hout).
    apply list_elem_of_further, list_elem_of_here.
  - vm_compute in Hout. discriminate.
Defined.

End ResampleMore.

Section RoundingFacts.
Import Num.

Lemma rint_choice (x : Qc) :
  (rint x = Qfloor x /\ (x - Zc (Qfloor x) <= Q2Qc (1 # 2))%Qc)
  \/ (rint x = (Qfloor x + 1)%Z /\ (Q2Qc (1 # 2) <= x - Zc (Qfloor x))%Qc).
Proof.
  unfold rint. destruct (x - Zc (Qfloor x) ?= Q2Qc (1 # 2))%Qc eqn:Hcmp.
  - apply Qceq_alt in Hcmp. rewrite Hcmp.
    destruct (Z.even (Qfloor x)); [left | right]; split;
      reflexivity || apply Qcle_refl.
  - left. split; [reflexivity|]. apply Qclt_le_weak. now apply Qclt_alt.
  - right. split; [reflexivity|]. apply Qclt_le_weak. now apply Qcgt_alt.
Qed.

Lemma rint_monotone (x y : Qc) : (x <= y)%Qc -> (rint x <= rint y)%Z.
Proof.
  intros Hxy.
  assert (Hfloor : (Qfloor x <= Qfloor y)%Z) by now apply Qfloor_resp_le.
  destruct (Z.eq_dec (Qfloor x) (Qfloor y)) as [Heq|Hne].
  - unfold rint. rewrite <- Heq.
    assert (Hfrac : (x - Zc (Qfloor x) <= y - Zc (Qfloor x))%Qc).
    { unfold Qcle, Qcminus, Qcplus, Qcopp, Zc in *. cbn [this Q2Qc] in *.
      rewrite ?Qred_correct in *. lra. }
    destruct (x - Zc (Qfloor x) ?= Q2Qc (1 # 2))%Qc eqn:Hx,
             (y - Zc (Qfloor x) ?= Q2Qc (1 # 2))%Qc eqn:Hy;
      try lia; try (destruct (Z.even (Qfloor x)); lia); exfalso.
    + apply Qceq_alt in Hx. apply Qclt_alt in Hy. rewrite Hx in Hfrac.
      now apply Qcle_not_lt in Hfrac.
    + apply Qcgt_alt in Hx. apply Qceq_alt in Hy. rewrite Hy in Hfrac.
      now apply Qcle_not_lt in Hfrac.
    + apply Qcgt_alt in Hx. apply Qclt_alt in Hy.
      apply (Qcle_not_lt _ _ Hfrac). eapply Qclt_trans; eassumption.
  - destruct (rint_choice x) as [[-> _]|[-> _]], (rint_choice y) as [[-> _]|[-> _]]; lia.
Qed.

Lemma round2_monotone (x y : Qc) : (x <= y)%Qc -> (round2 x <= round2 y)%Qc.
Proof.
  intros Hxy. unfold round2.
  assert (Hscaled : (x * Zc 100 <= y * Zc 100)%Qc).
  { unfold Qcle, Qcmult, Zc in *. cbn [this Q2Qc] in *.
    rewrite ?Qred_correct in *. change (inject_Z 100) with (100 # 1)%Q. lra. }
  apply rint_monotone in Hscaled.
  set (a := rint (x * Zc 100)) in *. set (b := rint (y * Zc 100)) in *.
  clearbody a b.
  unfold Qcle, Qcdiv, Qcinv, Qcmult, Zc. cbn [this Q2Qc].
  rewrite ?Qred_correct. change (inject_Z 100) with (100 # 1)%Q.
  apply Qmult_le_compat_r; [|discriminate].
  now rewrite <- Zle_Qle.
Qed.

Lemma round2_in_hundredths (x : Qc) : Shape.in_hundredths (round2 x).
Proof. now exists (rint (x * Zc 100)). Qed.

End RoundingFacts.

Section UpsamplerRunFacts.
Import Num Upsampler.
Variable to_datetime : string -> option Z.
Variable noise : nat -> Qc.

(** X12. The Upsampler never changes the weekly file, and it writes the
    hourly file only when it completes: a date cell that does not parse, or
    a date that occurs twice, ends the run with an uncaught [ValueError] and
    the directory as it was. *)
Theorem upsample_rates_writes_only_on_success (fs : files) :
  let o := (upsample_rates to_datetime noise fs).1 in
  let fs' := (upsample_rates to_datetime noise fs).2 in
  rates_csv fs' = rates_csv fs
  /\ (o = Completed \/ fs' = fs)
  /\ (forall table, rates_csv fs = Some table ->
        Exists (fun r => to_datetime (fst r) = None) table ->
        o = Uncaught "ValueError" /\ fs' = fs)
  /\ (forall table dates, rates_csv fs = Some table ->
        mapM (fun r => to_datetime (fst r)) table = Some dates ->
        ~ NoDup dates ->
        o = Uncaught "ValueError" /\ fs' = fs).
Proof.
  unfold upsample_rates.
  destruct (rates_csv fs) as [table|] eqn:Hfile.
  - destruct (mapM (fun r => to_datetime (fst r)) table) as [dates|] eqn:Hdates.
    + assert (Hlen : length dates = length (map snd table)).
      { rewrite length_map. symmetry. now apply length_mapM in Hdates. }
      assert (Hfst : map fst (zip dates (map snd table)) = dates).
      { change (map fst ?l) with (fst <$> l). apply fst_zip. lia. }
      destruct (resample_interpolate (zip dates (map snd table))) as [out|] eqn:Hout;
        cbn [fst snd rates_csv].
      * split; [reflexivity|]. split; [now left|]. split.
        -- intros table' [= <-] Hbad. apply mapM_None_2 in Hbad. congruence.
        -- intros table' dates' [= <-] Hd' Hdup.
           assert (dates' = dates) as -> by congruence.
           exfalso. apply Hdup. rewrite <- Hfst.
           destruct (zip dates (map snd table)) as [|[d p] rest] eqn:Hzip;
             [constructor|].
           unfold resample_interpolate in Hout.
           destruct (bool_decide (NoDup (map fst ((d, p) :: rest)))) eqn:Hnd;
             [|discriminate].
           now apply bool_decide_eq_true_1 in Hnd.
      * split; [exact Hfile|]. split; [now right|]. split; auto.
    + cbn [fst snd]. split; [exact Hfile|]. split; [now right|]. split; auto.
  - cbn [fst snd]. split; [exact Hfile|]. split; [now right|].
    split; intros; discriminate.
Qed.

(** X13. When the Upsampler completes, the hourly file has one row per
    point of the interpolated series, in the order of the series and with
    its timestamps, each with the constant route label; a missing value
    stays missing, and a value is written as a whole number of hundredths:
    the two-decimal rounding of the value plus the noise draw of the row's
    own position. *)
Theorem upsample_rates_rows_follow_the_series (fs fs' : files)
    (rows : list hourly_row) :
  upsample_rates to_datetime noise fs = (Completed, fs') ->
  upsampled_rates_csv fs' = Some rows ->
  exists table dates out,
    rates_csv fs = Some table
    /\ mapM (fun r => to_datetime (fst r)) table = Some dates
    /\ resample_interpolate (zip dates (map snd table)) = Some out
    /\ length rows = length out
    /\ Date <$> rows = fst <$> out
    /\ Forall (fun r => Route r = "Shanghai-Rotterdam") rows
    /\ (forall i ts, out !! i = Some (ts, None) ->
          rows !! i = Some {| Date := ts; Price := None;
                              Route := "Shanghai-Rotterdam" |})
    /\ (forall i ts v, out !! i = Some (ts, Some v) ->
          rows !! i = Some {| Date := ts; Price := Some (round2 (v + noise i));
                              Route := "Shanghai-Rotterdam" |}
          /\ Shape.in_hundredths (round2 (v + noise i))).
Proof.
  unfold upsample_rates.
  destruct (rates_csv fs) as [table|] eqn:Htable; [|discriminate].
  destruct (mapM (fun r => to_datetime (fst r)) table) as [dates|] eqn:Hdates;
    [|discriminate].
  destruct (resample_interpolate (zip dates (map snd table))) as [out|] eqn:Hout;
    [|discriminate].
  intros [= <-]. cbn [upsampled_rates_csv]. intros [= <-].
  exists table, dates, out.
  split; [reflexivity|]. split; [exact Hdates|]. split; [exact Hout|].
  split; [apply length_imap|]. split; [|split; [|split]].
  - apply list_eq. intros i. rewrite !list_lookup_fmap, list_lookup_imap.
    now destruct (out !! i).
  - apply Forall_forall. intros r Hr.
    apply list_elem_of_lookup in Hr as (i & Hi).
    rewrite list_lookup_imap in Hi. destruct (out !! i); [|discriminate].
    now injection Hi as <-.
  - intros i ts Hi. now rewrite list_lookup_imap, Hi.
  - intros i ts v Hi. rewrite list_lookup_imap, Hi.
    split; [reflexivity | apply round2_in_hundredths].
Qed.

End UpsamplerRunFacts.

Lemma upsample_rates_rows_follow_the_series_witness :
  exists fs' rows,
    Upsampler.upsample_rates Calendar.parse_iso_date (fun i => Num.Zc (Z.of_nat i))
      Samples.weekly_files = (Upsampler.Completed, fs')
    /\ Upsampler.upsampled_rates_csv fs' = Some rows
    /\ length rows = 169%nat
    /\ rows !! 1%nat
       = Some {| Upsampler.Date := 1696122000;
                 Upsampler.Price := Some (Q2Qc (100219 # 100));
                 Upsampler.Route := "Shanghai-Rotterdam" |}.
Proof.
  pose (run := Upsampler.upsample_rates Calendar.parse_iso_date
                 (fun i => Num.Zc (Z.of_nat i)) Samples.weekly_files).
  assert (Hrun : run = (Upsampler.Completed, run.2)) by (vm_compute; reflexivity).
  destruct (Upsampler.upsampled_rates_csv run.2) as [rows|] eqn:Hrows;
    [|vm_compute in Hrows; discriminate].
  destruct (upsample_rates_rows_follow_the_series Calendar.parse_iso_date
              (fun i => Num.Zc (Z.of_nat i)) Samples.weekly_files run.2 rows Hrun Hrows)
    as (table & dates & out & Htable & Hdates & Hout & Hlen & _ & _ & _ & Hrow).
  assert (Hout' : out = default [] (Upsampler.resample_interpolate Samples.weekly_rates)).
  { injection Htable as <-.
    assert (dates = map fst Samples.weekly_rates) as ->
      by (vm_compute in Hdates; injection Hdates as <-; reflexivity).
    change (zip _ _) with Samples.weekly_rates in Hout. now rewrite Hout. }
  exists run.2, rows. split; [exact Hrun|]. split; [exact Hrows|]. split.
  - rewrite Hlen, Hout'. vm_compute. reflexivity.
  - assert (Hsecond : out !! 1%nat
                      = Some (1696122000%Z, Some (Q2Qc (21025 # 21)))).
    { rewrite Hout'. vm_compute.
      first [reflexivity | do 3 f_equal; apply Qc_is_canon; reflexivity]. }
    destruct (Hrow 1%nat _ _ Hsecond) as [-> _].
    first [ vm_compute; reflexivity
          | do 3 f_equal; apply Qc_is_canon; vm_compute; reflexivity ].
Defined.

(** ** Further properties of the transform and the ingest *)

Section AggregateFacts.
Import Num Orchestrator Spec.

Lemma aggregate_keys (rows : list news_row) :
  d_event_date <$> aggregate_daily rows = remove_dups (event_date <$> rows).
Proof.
  unfold aggregate_daily. change (map ?f ?l) with (f <$> l).
  rewrite <- list_fmap_compose. apply list_fmap_id.
Qed.

Lemma length_split_filter {A} (P : A -> Prop) `{!forall x, Decision (P x)} (l : list A) :
  length l = (length (filter P l) + length (filter (fun x => ~ P x) l))%nat.
Proof.
  induction l as [|x l IH]; [reflexivity|].
  destruct (decide (P x)) as [Hx|Hx].
  - rewrite filter_cons_True, filter_cons_False by tauto. simpl. lia.
  - rewrite filter_cons_False, filter_cons_True by tauto. simpl. lia.
Qed.

Lemma groups_partition (keys : list (option Z)) (rows : list news_row) :
  NoDup keys -> (forall r, r ∈ rows -> event_date r ∈ keys) ->
  Shape.total ((fun k => Z.of_nat (length (group k rows))) <$> keys)
  = Z.of_nat (length rows).
Proof.
  intros Hnd. revert rows. induction Hnd as [|k keys Hk Hnd IH]; intros rows Hall.
  - destruct rows as [|r rows]; [reflexivity|].
    specialize (Hall r (list_elem_of_here _ _)). now apply not_elem_of_nil in Hall.
  - rewrite fmap_cons. cbn [Shape.total foldr].
    rewrite (length_split_filter (fun r => event_date r = k) rows).
    fold (group k rows).
    set (others := filter (fun r => event_date r <> k) rows).
    rewrite Nat2Z.inj_add. f_equal.
    rewrite <- (IH others).
    + unfold Shape.total. f_equal. apply list_fmap_ext. intros i k' Hk'.
      apply list_elem_of_lookup_2 in Hk'. do 2 f_equal.
      unfold group, others. symmetry.
      apply list_filter_filter_l. intros r -> ->. contradiction.
    + intros r [Hr Hin]%list_elem_of_filter.
      specialize (Hall r Hin). apply elem_of_cons in Hall as [|]; [contradiction|assumption].
Qed.

(** X15. The daily aggregation loses and repeats nothing: there is one
    aggregate per distinct date, every aggregate counts at least one
    document, and the counts add up to the number of documents. *)
Theorem aggregation_conserves_documents (docs : list news_doc) :
  let news := aggregate_daily (clean_news <$> docs) in
  NoDup (d_event_date <$> news)
  /\ Forall (fun a => (1 <= d_news_count a)%Z) news
  /\ Shape.total (d_news_count <$> news) = Z.of_nat (length docs).
Proof.
  intros news. set (rows := clean_news <$> docs).
  split; [|split].
  - unfold news. rewrite aggregate_keys. apply NoDup_remove_dups.
  - apply Forall_forall. intros a Ha.
    apply elem_of_aggregate in Ha as (Hk & -> & _).
    change (map event_date rows) with (event_date <$> rows) in Hk.
    apply list_elem_of_fmap in Hk as (r & Hr & Hin).
    assert (Hg : r ∈ group (d_event_date a) rows)
      by (apply list_elem_of_filter; auto).
    fold rows. destruct (group (d_event_date a) rows) as [|r' g];
      [now apply not_elem_of_nil in Hg|].
    cbn [length]. rewrite Nat2Z.inj_succ. lia.
  - unfold news, aggregate_daily. change (map ?f ?l) with (f <$> l).
    rewrite <- list_fmap_compose.
    rewrite <- (length_fmap clean_news docs). fold rows.
    apply groups_partition; [apply NoDup_remove_dups|].
    intros r Hr. apply elem_of_remove_dups. now apply list_elem_of_fmap_2.
Qed.

Lemma docs_of_day_without_dayless (day : Z) (docs : list news_doc) :
  docs_of_day day (filter (fun d => is_Some (Day d)) docs) = docs_of_day day docs.
Proof.
  unfold docs_of_day. apply list_filter_filter_l.
  intros d. unfold clean_news. cbn [event_date].
  destruct (Day d); [eauto | discriminate].
Qed.

Lemma same_table_refl (t : option (list gold_row)) : same_table t t.
Proof. destruct t; simpl; reflexivity. Qed.

(** X14. In a collection whose day keys are null or calendar days, the
    documents without a [Day] take no part in the transform: the joined
    frame, the message and the gold table are those of the collection
    without them. *)
Theorem documents_without_day_are_ignored (s : stores) :
  day_keys_parse s = true ->
  df_final (Shape.without_dayless s) ≡ₚ df_final s
  /\ (transform_data_with_spark (Shape.without_dayless s)).2
     = (transform_data_with_spark s).2
  /\ same_table
       (Gold_Analytics_RedSea (transform_data_with_spark (Shape.without_dayless s)).1)
       (Gold_Analytics_RedSea (transform_data_with_spark s).1).
Proof.
  intros _.
  assert (Hfinal : df_final (Shape.without_dayless s) = df_final s).
  { rewrite !df_final_inner_join. unfold Shape.without_dayless, inner_join.
    cbn [raw_gdelt_events Staging_Rates].
    induction (Staging_Rates s) as [|r rates IH]; [reflexivity|].
    now rewrite !bind_cons, IH, docs_of_day_without_dayless. }
  split; [now rewrite Hfinal|].
  rewrite !transform_unfold, Hfinal.
  destruct (df_final s); cbn [fst snd Gold_Analytics_RedSea Shape.without_dayless];
    split; try reflexivity; apply same_table_refl.
Qed.

(** X17. In a collection whose day keys are null or calendar days, the
    transform reports "no matching dates" and leaves all three stores as
    they were, the previous gold table included, exactly when no rate-hour
    falls on a day that has news; in particular when the collection or the
    rate table is empty. *)
Theorem no_common_date_leaves_gold_untouched (s : stores) :
  day_keys_parse s = true ->
  (forall r, r ∈ Staging_Rates s ->
     docs_of_day (calendar_date (Date r)) (raw_gdelt_events s) = [])
  <-> transform_data_with_spark s = (s, NoMatchingDates).
Proof.
  intros _.
  assert (Hempty : df_final s = [] <->
    (forall r, r ∈ Staging_Rates s ->
       docs_of_day (calendar_date (Date r)) (raw_gdelt_events s) = [])).
  { rewrite df_final_inner_join. unfold inner_join.
    induction (Staging_Rates s) as [|r rates IH].
    - split; [intros _ r Hr; now apply not_elem_of_nil in Hr | reflexivity].
    - rewrite bind_cons. split.
      + intros Hnil. apply app_eq_nil in Hnil as [Hr Hrest].
        intros r' [->|Hr']%elem_of_cons.
        * now destruct (docs_of_day _ _).
        * now apply IH.
      + intros Hall. rewrite (Hall r (list_elem_of_here _ _)). cbn [app].
        apply IH. intros r' Hr'. apply Hall. now apply list_elem_of_further. }
  rewrite <- Hempty, transform_unfold.
  destruct (df_final s) as [|g l].
  - tauto.
  - split; [discriminate|]. intros [= _ Hmsg].
Qed.

End AggregateFacts.

Lemma documents_without_day_are_ignored_witness :
  Orchestrator.df_final (Shape.without_dayless MoreSamples.october_stores_with_dayless)
  ≡ₚ Orchestrator.df_final MoreSamples.october_stores_with_dayless.
Proof.
  exact (proj1 (documents_without_day_are_ignored
                  MoreSamples.october_stores_with_dayless eq_refl)).
Defined.

Lemma no_common_date_leaves_gold_untouched_witness :
  Orchestrator.transform_data_with_spark Samples.unmatched_stores
  = (Samples.unmatched_stores, Orchestrator.NoMatchingDates).
Proof.
  apply (no_common_date_leaves_gold_untouched Samples.unmatched_stores eq_refl).
  intros r Hr. apply list_elem_of_singleton in Hr. subst r.
  vm_compute. reflexivity.
Defined.

Section IngestMore.
Import Orchestrator.

(** X18. The news ingest replaces and never accumulates: after a run that
    reports success the collection is exactly the records of the mined
    file, whatever it held before; an empty file leaves an empty collection;
    and running the unit again on what it left gives the same collection and
    the same message. *)
Theorem ingest_replaces_the_collection (w : ingest_world) :
  let w1 := (ingest_news_to_mongo w).1 in
  let msg := (ingest_news_to_mongo w).2 in
  (forall n, msg = Inserted n ->
     historical_news_raw_csv w = Some (collection w1)
     /\ n = length (collection w1) /\ collection w1 <> [])
  /\ (msg = CsvWasEmpty ->
        historical_news_raw_csv w = Some [] /\ collection w1 = [])
  /\ collection (ingest_news_to_mongo w1).1 = collection w1
  /\ (ingest_news_to_mongo w1).2 = msg.
Proof.
  unfold ingest_news_to_mongo, insert_many, delete_many, issue, set_collection.
  cbn [collection historical_news_raw_csv insert_fault log].
  destruct (historical_news_raw_csv w) as [[|r records]|] eqn:Hcsv;
    [| destruct (insert_fault w) as [k|] eqn:Hfault |];
    cbn [fst snd collection historical_news_raw_csv insert_fault log app];
    rewrite ?Hcsv, ?Hfault;
    cbn [fst snd collection historical_news_raw_csv insert_fault log app].
  - repeat split; try discriminate; reflexivity.
  - repeat split; discriminate || reflexivity.
  - split; [|repeat split; discriminate || reflexivity].
    intros n [= <-]. repeat split; discriminate || reflexivity.
  - repeat split; discriminate || reflexivity.
Qed.

End IngestMore.

(** ** Further properties of the dashboard *)

Section DashboardFacts.
Import Num Dashboard DashboardView.

Lemma dates_within_window (df : list df_row) (w : window) (r : df_row) :
  date_window df = Some w -> r ∈ df ->
  (min_date w <= date_of r <= max_date w)%Z.
Proof.
  unfold date_window.
  destruct (Calendar.date_of_timestamp <$> (full_date <$> df)) as [|d ds] eqn:Hd;
    [discriminate|].
  intros [= <-] Hin. cbn [min_date max_date].
  assert (Hr : date_of r ∈ d :: ds).
  { rewrite <- Hd. unfold date_of.
    now apply list_elem_of_fmap_2, list_elem_of_fmap_2. }
  apply elem_of_cons in Hr as [->|Hr].
  - split; [apply col_min_le | apply col_max_ge].
  - split; [now apply col_min_lower | now apply col_max_upper].
Qed.

(** X19. The date filter keeps exactly the rows whose calendar date lies in
    the selected range, in their order; and selecting the whole range from
    the first to the last date of the data keeps every row. *)
Theorem date_filter_keeps_rows_in_range (df : list df_row) (w : window)
    (start_date end_date : Z) :
  date_window df = Some w ->
  (forall r, r ∈ filter_range start_date end_date df
             <-> r ∈ df /\ (start_date <= date_of r <= end_date)%Z)
  /\ filter_range start_date end_date df `sublist_of` df
  /\ filter_range (min_date w) (max_date w) df = df.
Proof.
  intros Hw. unfold filter_range. split; [|split].
  - intros r. rewrite list_elem_of_filter. tauto.
  - apply sublist_filter.
  - induction df as [|r df IH] using rev_ind; [reflexivity|].
    rewrite filter_app, filter_cons_True, filter_nil.
    + f_equal. clear IH.
      assert (Hall : forall x, x ∈ df ->
                (min_date w <= date_of x)%Z /\ (date_of x <= max_date w)%Z).
      { intros x Hx.
        pose proof (dates_within_window _ w x Hw
                      ltac:(apply elem_of_app; now left)). lia. }
      clear Hw. induction df as [|x df IH]; [reflexivity|].
      rewrite filter_cons_True by (apply Hall, list_elem_of_here).
      f_equal. apply IH. intros y Hy. now apply Hall, list_elem_of_further.
    + pose proof (dates_within_window _ w r Hw
                    ltac:(apply elem_of_app; right; apply list_elem_of_here)). lia.
Qed.

Lemma date_filter_keeps_rows_in_range_witness :
  exists w, date_window (load_data (Some Samples.february_gold)) = Some w
            /\ filter_range (min_date w) (max_date w)
                 (load_data (Some Samples.february_gold))
               = load_data (Some Samples.february_gold).
Proof.
  set (df := load_data (Some Samples.february_gold)).
  destruct (date_window df) as [w|] eqn:Hw; [|vm_compute in Hw; discriminate].
  exists w. split; [reflexivity|].
  exact (proj2 (proj2 (date_filter_keeps_rows_in_range df w 0 0 Hw))).
Defined.

(** X20. When the dates of the data overlap the hard-coded window from
    2023-11-15 to 2024-01-31, both defaults of the date control lie within
    the data's first and last date and the default start is not after the
    default end; in every case the start is not before the first date and
    the end not after the last. *)
Theorem defaults_fit_overlapping_data (df : list df_row) (w : window) :
  date_window df = Some w ->
  (min_date w <= default_start w)%Z
  /\ (default_end w <= max_date w)%Z
  /\ ((min_date w <= crisis_end)%Z -> (crisis_start <= max_date w)%Z ->
      Spec.within_bounds w (default_start w)
      /\ Spec.within_bounds w (default_end w)
      /\ (default_start w <= default_end w)%Z).
Proof.
  unfold date_window, Spec.within_bounds.
  destruct (Calendar.date_of_timestamp <$> (full_date <$> df)) as [|d ds];
    [discriminate|].
  intros [= <-]. cbn [min_date max_date default_start default_end].
  pose proof (col_min_le d ds). pose proof (col_max_ge d ds).
  assert (Hwindow : (crisis_start <= crisis_end)%Z) by (vm_compute; discriminate).
  destruct (Z.ltb_spec crisis_start (col_min d ds)),
           (Z.ltb_spec (col_max d ds) crisis_end); lia.
Qed.

Lemma defaults_fit_overlapping_data_witness :
  exists w,
    date_window (load_data (Some MoreSamples.december_gold)) = Some w
    /\ Spec.within_bounds w (default_start w)
    /\ Spec.within_bounds w (default_end w)
    /\ (default_start w <= default_end w)%Z.
Proof.
  destruct (date_window (load_data (Some MoreSamples.december_gold))) as [w|] eqn:Hw;
    [|vm_compute in Hw; discriminate].
  exists w. split; [reflexivity|].
  apply (defaults_fit_overlapping_data _ w Hw);
    vm_compute in Hw; injection Hw as <-; vm_compute; discriminate.
Defined.

End DashboardFacts.

Section LoadFacts.
Import Num Dashboard DashboardView.

#[local] Instance by_full_date_total : Total by_full_date.
Proof. intros a b. unfold by_full_date. lia. Qed.

(** X21. Loading loses and adds no row: the frame holds the pre-processed
    rows of the gold table, each once, ordered by ascending date; a missing
    table gives the empty frame, for which the script stops before the date
    control. *)
Theorem load_data_orders_and_keeps_rows (gold : list Orchestrator.gold_row) :
  load_data (Some gold) ≡ₚ preprocess <$> gold
  /\ length (load_data (Some gold)) = length gold
  /\ Sorted (fun a b => (full_date a <= full_date b)%Z) (load_data (Some gold))
  /\ load_data None = []
  /\ date_window (load_data None) = None.
Proof.
  unfold load_data. split; [|split; [|split; [|split; reflexivity]]].
  - now rewrite merge_sort_Permutation.
  - rewrite length_fmap. apply Permutation_length, merge_sort_Permutation.
  - apply (Sorted_fmap _ by_full_date); [intros a b Hab; exact Hab|].
    apply (Sorted_merge_sort by_full_date).
Qed.

Lemma Qcmax_ge_l (a b : Qc) : (a <= Qcmax a b)%Qc.
Proof.
  unfold Qcmax. destruct (a ?= b)%Qc eqn:Hc.
  - apply Qcle_refl.
  - apply Qclt_le_weak. now apply Qclt_alt.
  - apply Qcle_refl.
Qed.

Lemma Qcmax_ge_r (a b : Qc) : (b <= Qcmax a b)%Qc.
Proof.
  unfold Qcmax. destruct (a ?= b)%Qc eqn:Hc.
  - apply Qceq_alt in Hc as ->. apply Qcle_refl.
  - apply Qcle_refl.
  - apply Qclt_le_weak. now apply Qcgt_alt.
Qed.

Lemma Qcmax_cases (a b : Qc) : Qcmax a b = a \/ Qcmax a b = b.
Proof. unfold Qcmax. destruct (a ?= b)%Qc; auto. Qed.

Lemma fold_Qcmax_upper (l : list Qc) (acc : Qc) :
  (acc <= fold_left Qcmax l acc)%Qc
  /\ (forall x, x ∈ l -> (x <= fold_left Qcmax l acc)%Qc)
  /\ (fold_left Qcmax l acc = acc \/ fold_left Qcmax l acc ∈ l).
Proof.
  revert acc. induction l as [|y l IH]; intros acc; cbn [fold_left].
  - split; [apply Qcle_refl|]. split; [|now left].
    intros x Hx. now apply not_elem_of_nil in Hx.
  - destruct (IH (Qcmax acc y)) as (Hacc & Hall & Hwhich).
    split; [|split].
    + eapply Qcle_trans; [apply Qcmax_ge_l | exact Hacc].
    + intros x [->|Hx]%elem_of_cons; [|now apply Hall].
      eapply Qcle_trans; [apply Qcmax_ge_r | exact Hacc].
    + destruct Hwhich as [Hw|Hw].
      * rewrite Hw. destruct (Qcmax_cases acc y) as [->| ->];
          [now left | right; apply list_elem_of_here].
      * right. now apply list_elem_of_further.
Qed.

(** X22. The summary exists exactly for a frame that is not empty; its peak
    price is the price of one of the rows and no row has a higher one, and
    the correlation is shown only when the frame has at least two rows. *)
Theorem summary_peak_is_attained (df : list df_row) :
  (summary df = None <-> df = [])
  /\ (forall k, summary df = Some k ->
        (exists r, r ∈ df /\ Price r = max_price k)
        /\ (forall r, r ∈ df -> (Price r <= max_price k)%Qc)
        /\ (correlation_shown k = true <-> (2 <= length df)%nat)).
Proof.
  unfold summary. destruct df as [|r rs].
  - split; [tauto|]. intros k; discriminate.
  - split; [split; discriminate|]. intros k [= <-].
    cbn [max_price correlation_shown].
    destruct (fold_Qcmax_upper (Price <$> rs) (Price r)) as (Hacc & Hall & Hwhich).
    split; [|split].
    + destruct Hwhich as [Hw|Hw].
      * exists r. split; [apply list_elem_of_here | now rewrite Hw].
      * apply list_elem_of_fmap in Hw as (r' & Hr' & Hin).
        exists r'. split; [now apply list_elem_of_further | now rewrite Hr'].
    + intros x [->|Hx]%elem_of_cons; [exact Hacc|].
      apply Hall. now apply list_elem_of_fmap_2.
    + rewrite Nat.ltb_lt. cbn [length]. lia.
Qed.

(** X23. Pre-processing never reorders and never invents: date and count
    are kept, a row whose stored score is null has neither a score nor a
    risk score, a row with a score has both, every figure shown is a whole
    number of hundredths, and of two rows the one with the lower stored
    price (or score) never shows the higher one. *)
Theorem preprocess_rounds_to_hundredths (g g' : Orchestrator.gold_row) :
  full_date (preprocess g) = Orchestrator.full_date g
  /\ news_count (preprocess g) = Orchestrator.news_count g
  /\ Shape.in_hundredths (Price (preprocess g))
  /\ match Orchestrator.avg_conflict_score g with
     | Some a =>
         exists shown risk,
           avg_conflict_score (preprocess g) = Some shown
           /\ Risk_Score (preprocess g) = Some risk
           /\ Shape.in_hundredths shown /\ Shape.in_hundredths risk
     | None =>
         avg_conflict_score (preprocess g) = None
         /\ Risk_Score (preprocess g) = None
     end
  /\ ((Orchestrator.g_Price g <= Orchestrator.g_Price g')%Qc ->
      (Price (preprocess g) <= Price (preprocess g'))%Qc)
  /\ (forall a a' shown shown',
        Orchestrator.avg_conflict_score g = Some a ->
        Orchestrator.avg_conflict_score g' = Some a' ->
        avg_conflict_score (preprocess g) = Some shown ->
        avg_conflict_score (preprocess g') = Some shown' ->
        (a <= a')%Qc -> (shown <= shown')%Qc).
Proof.
  unfold preprocess. cbn [full_date news_count Price avg_conflict_score Risk_Score].
  split; [reflexivity|]. split; [reflexivity|].
  split; [apply round2_in_hundredths|]. split; [|split].
  - destruct (Orchestrator.avg_conflict_score g) as [a|]; cbn; [|auto].
    eexists _, _. repeat split; apply round2_in_hundredths.
  - apply round2_monotone.
  - intros a a' shown shown' -> ->. cbn. intros [= <-] [= <-].
    apply round2_monotone.
Qed.

End LoadFacts.
